(** * InformationCascades: the network-breaking cascade model

    A shallow embedding of
    - [src/model/scripts/deprecated/model_networkbreaking_allmethods.py]
      ([sim_adjusting_network], [adjust_tie]) and
    - [src/scripts/cascade_models/cascades/evaluate_behavior.py]
      ([evaluate_behavior]),
    together with the properties the specification states about them.

    Conventions.
    - A numpy vector is a [list]; the adjacency matrix is a list of rows.
      Entries of the adjacency matrix and of the state vector are integers
      ([Z]); the source compares them with [== 1] and [== 0] only.
    - Indices are [nat] ([np.where] never yields a negative index).
    - numpy's global generator is an explicit state threaded through every
      call that draws from it; an exception is a value of [result]. *)

From Stdlib Require Import ZArith Lia Bool.
From Stdlib Require Import Floats.PrimFloat Floats.SpecFloat Floats.FloatOps Uint63.
From stdpp Require Import base list.

(** ** Exceptions and the global random generator *)

Inductive exn : Type :=
| ValueError
| IndexError
| OverflowError.

Inductive result (A : Type) : Type :=
| Ok (a : A)
| Raise (e : exn).
Arguments Ok {A} a.
Arguments Raise {A} e.

(** The state of [np.random]: the stream of raw draws the seed determines,
    and how many of them have been consumed. *)
Record RandomState : Type := mkRandomState {
  stream : nat → nat;
  pos : nat
}.

Definition next_draw (g : RandomState) : nat * RandomState :=
  (stream g (pos g), mkRandomState (stream g) (S (pos g))).

(** Computations that may draw from the generator and may raise. *)
Definition M (A : Type) : Type := RandomState → result (A * RandomState).

Definition ret {A} (a : A) : M A := λ g, Ok (a, g).
Definition raise {A} (e : exn) : M A := λ _, Raise e.
Definition bind {A B} (c : M A) (k : A → M B) : M B :=
  λ g, match c g with
       | Ok (a, g') => k a g'
       | Raise e => Raise e
       end.

Notation "'let!' x ':=' c 'in' k" := (bind c (λ x, k))
  (at level 10, x name, c at level 100, k at level 200, only parsing).

(** ** numpy and Python primitives used by the model *)

(** [np.where(v == x)[0]] on a vector: the positions holding [x], ascending. *)
Fixpoint where_from (i : nat) (x : Z) (v : list Z) : list nat :=
  match v with
  | [] => []
  | y :: v' => if (y =? x)%Z then i :: where_from (S i) x v'
               else where_from (S i) x v'
  end.

Definition np_where (x : Z) (v : list Z) : list nat := where_from 0 x v.

(** Python's builtin [sum] over an index array. *)
Definition py_sum (l : list nat) : nat := foldr Nat.add 0 l.

(** [np.random.choice(a, size = 1)]: raises [ValueError] on an empty [a],
    otherwise consumes one draw and returns the element at that draw's
    position (draws are reduced to the range of positions). *)
Definition np_random_choice {A} (a : list A) : M A :=
  λ g, match a with
       | [] => Raise ValueError
       | x :: _ =>
           let (r, g') := next_draw g in
           Ok (nth (Nat.modulo r (length a)) a x, g')
       end.

(** [v[i]] for an index array [i] of one element. *)
Definition getitem {A} (v : list A) (i : nat) : M A :=
  λ g, match v !! i with
       | Some x => Ok (x, g)
       | None => Raise IndexError
       end.

(** [network[i, j] = x]; the callers only pass positions taken from the
    matrix itself, so the assignment is always in range. *)
Definition setitem (network : list (list Z)) (i j : nat) (x : Z)
  : list (list Z) :=
  alter (λ row, <[j := x]> row) i network.

(** ** The tie adjuster ([adjust_tie], source lines 180-211) *)

Definition adjust_tie (network : list (list Z)) (states : list Z)
    (correct_behavior : list bool) : M (list (list Z)) :=
  let actives := np_where 1 states in
  if (0 <? py_sum actives)%nat then
    let! individual_active := np_random_choice actives in
    let! individual_correct := getitem correct_behavior individual_active in
    let! active_row := getitem network individual_active in
    let individual_neighbors := np_where 1 active_row in
    if negb individual_correct then
      let perceived_incorrect :=
        filter (λ ind, ind ∈ individual_neighbors) actives in
      let! break_tie := np_random_choice perceived_incorrect in
      let network := setitem network individual_active break_tie 0 in
      let n := length network in
      let! former_individual := np_random_choice (seq 0 n) in
      let! former_connections := getitem network former_individual in
      let potential_ties := np_where 0 former_connections in
      let potential_ties :=
        filter (λ j, j ≠ former_individual) potential_ties in
      if (0 <? length potential_ties)%nat then
        let! new_tie := np_random_choice potential_ties in
        ret (setitem network former_individual new_tie 1)
      else ret network
    else ret network
  else ret network.

(** ** The unconditional variant ([break_tie] and [make_tie], source lines
    141-178), which the driver has commented out *)

Definition break_tie (network : list (list Z)) (states : list Z)
    (correct_behavior : list bool) : M (list (list Z)) :=
  let actives := np_where 1 states in
  if (0 <? py_sum actives)%nat then
    let! breaker_active := np_random_choice actives in
    let! breaker_correct := getitem correct_behavior breaker_active in
    if negb breaker_correct then
      let! breaker_row := getitem network breaker_active in
      let breaker_neighbors := np_where 1 breaker_row in
      let perceived_incorrect :=
        filter (λ ind, ind ∈ breaker_neighbors) actives in
      let! break_tie := np_random_choice perceived_incorrect in
      ret (setitem network breaker_active break_tie 0)
    else ret network
  else ret network.

Section MakeTie.
(** [np.random.choice((True, False), p = (connect_prob, 1 - connect_prob))]:
    how numpy validates the weights and turns a draw into the flag is left
    open; it may consume draws and it may raise. *)
Variable choose_form_connection : float → M bool.

Definition make_tie (network : list (list Z)) (connect_prob : float)
  : M (list (list Z)) :=
  let n := length network in
  let! former_individual := np_random_choice (seq 0 n) in
  let! form_connection := choose_form_connection connect_prob in
  let! former_connections := getitem network former_individual in
  let potential_ties := np_where 0 former_connections in
  let potential_ties :=
    filter (λ j, j ≠ former_individual) potential_ties in
  if form_connection && (0 <? length potential_ties)%nat then
    let! new_tie := np_random_choice potential_ties in
    ret (setitem network former_individual new_tie 1)
  else ret network.
End MakeTie.

(** ** The behavior evaluator ([evaluate_behavior], source lines 11-37)

    Thresholds, stimuli and types are numpy [float64] values.  The evaluator
    is written once over any scalar type with a zero, an addition, a
    multiplication and a strict comparison, so that what is proved of it
    holds for IEEE doubles as for exact numbers. *)

(** The accumulator table [behavior_df], one list per column. *)
Record behavior_df : Type := mkBehavior {
  individual : list nat;
  true_positive : list Z;
  false_negative : list Z;
  true_negative : list Z;
  false_positive : list Z
}.

(** The four error-type masks of one timestep. *)
Record masks : Type := mkMasks {
  m_true_positive : list bool;
  m_true_negative : list bool;
  m_false_positive : list bool;
  m_false_negative : list bool
}.

(** An elementwise numpy operation on two column vectors: equal lengths
    combine position by position, a vector of one element is broadcast
    against the other, anything else raises. *)
Definition broadcast2 {A B C} (f : A → B → C) (xs : list A) (ys : list B)
  : result (list C) :=
  if (length xs =? length ys)%nat then Ok (zip_with f xs ys)
  else match xs, ys with
       | [x], _ => Ok (map (f x) ys)
       | _, [y] => Ok (map (λ x, f x y) xs)
       | _, _ => Raise ValueError
       end.

(** [column + np.ndarray.flatten(mask)] on a table column: pandas requires
    the array to have the length of the column; [True] counts 1. *)
Definition add_mask (column : list Z) (mask : list bool) : result (list Z) :=
  if (length column =? length mask)%nat
  then Ok (zip_with (λ c (b : bool), if b then c + 1 else c)%Z column mask)
  else Raise ValueError.

Definition rbind {A B} (r : result A) (k : A → result B) : result B :=
  match r with
  | Ok a => k a
  | Raise e => Raise e
  end.

Notation "'try!' x ':=' c 'in' k" := (rbind c (λ x, k))
  (at level 10, x name, c at level 100, k at level 200, only parsing).

(** Source lines 26-29. *)
Definition error_masks (states : list Z) (correct_behavior : list bool)
  : result masks :=
  let active := map (λ s, s =? 1)%Z states in
  let inactive := map (λ s, s =? 0)%Z states in
  let incorrect := map negb correct_behavior in
  try! tp := broadcast2 andb active correct_behavior in
  try! tn := broadcast2 andb inactive incorrect in
  try! fp := broadcast2 andb active incorrect in
  try! fn := broadcast2 andb inactive correct_behavior in
  Ok (mkMasks tp tn fp fn).

Section ScalarOps.
Variable scalar : Type.
Variable zero : scalar.
Variable add mul : scalar → scalar → scalar.
Variable gt : scalar → scalar → bool.

(** One entry of [np.dot(types, np.transpose(stimuli))]: the inner
    product of a row of [types] with the stimulus row. *)
Definition dot_row (row stimuli : list scalar) : result scalar :=
  if (length row =? length stimuli)%nat
  then Ok (foldl add zero (zip_with mul row stimuli))
  else Raise ValueError.

Fixpoint np_dot (types : list (list scalar)) (stimuli : list scalar)
  : result (list scalar) :=
  match types with
  | [] => Ok []
  | row :: rest =>
      try! x := dot_row row stimuli in
      try! xs := np_dot rest stimuli in
      Ok (x :: xs)
  end.

Definition evaluate_behavior (states : list Z) (thresholds stimuli : list scalar)
    (types : list (list scalar)) (df : behavior_df)
  : result (list bool * behavior_df) :=
  try! true_stim := np_dot types stimuli in
  try! correct_behavior := broadcast2 gt true_stim thresholds in
  try! ms := error_masks states correct_behavior in
  try! tp := add_mask (true_positive df) (m_true_positive ms) in
  try! tn := add_mask (true_negative df) (m_true_negative ms) in
  try! fp := add_mask (false_positive df) (m_false_positive ms) in
  try! fn := add_mask (false_negative df) (m_false_negative ms) in
  Ok (correct_behavior, mkBehavior (individual df) tp fn tn fp).
End ScalarOps.

(** ** The simulation driver ([sim_adjusting_network], source lines 32-111) *)

(** Python's [float(z)] for an [int]: the nearest double, ties to even;
    [OverflowError] when [z] is beyond the range of doubles. *)
Definition float_of_int (z : Z) : result float :=
  match binary_normalize prec emax z 0 false with
  | S754_infinity _ => Raise OverflowError
  | x => Ok (SF2Prim x)
  end.

(** Python's [int(x)] for a [float]: truncation toward zero; [ValueError]
    on a NaN and [OverflowError] on an infinity. *)
Definition int_of_float (x : float) : result Z :=
  match Prim2SF x with
  | S754_zero _ => Ok 0%Z
  | S754_finite s m e =>
      let magnitude :=
        match e with
        | Z0 => Zpos m
        | Zpos p => (Zpos m * 2 ^ Zpos p)%Z
        | Zneg p => (Zpos m / 2 ^ Zpos p)%Z
        end in
      Ok (if s then (- magnitude)%Z else magnitude)
  | S754_infinity _ => Raise OverflowError
  | S754_nan => Raise ValueError
  end.

(** Source line 48: [seed = int( (replicate + 1 + gamma) * 323 )]. *)
Definition derive_seed (replicate : Z) (gamma : float) : result Z :=
  try! r := float_of_int (replicate + 1) in
  int_of_float (PrimFloat.mul (PrimFloat.add r gamma) 323%float).

Inductive network_type : Type := random | scalefree.

Section Driver.
(** The collaborators of the driver live in the package [cascade_models],
    outside the modelled sources; the driver is written over any
    behaviour of theirs.  Each may draw from the global generator. *)
Variable mt19937 : Z → nat → nat.
Variables Samplers Stats Fitness : Type.
Variable empty_stats : Stats.
Variable seed_thresholds : nat → float → float → M (list float).
Variable assign_type : nat → M (list (list float)).
Variable seed_social_network : nat → nat → network_type → M (list (list Z)).
Variable simulate_stim_sampling :
  nat → float → float → list (list float) → list float →
  M (list float * list Z * Samplers * Samplers).
Variable simulate_cascade : list (list Z) → list Z → list float → M (list Z).
Variable get_cascade_stats :
  nat → Samplers → Samplers → list Z → list (list float) → Stats → M Stats.
Variable assess_fitness :
  nat → float → float → Z → list (list Z) → list float →
  list (list float) → M (Fitness * Fitness).

(** [np.random.seed(seed)]: replaces the state of the global generator,
    whatever it was; seeds outside [0, 2^32) are refused. *)
Definition np_random_seed (seed : Z) : M unit :=
  λ _, if ((0 <=? seed) && (seed <? 2 ^ 32))%Z
       then Ok (tt, mkRandomState (mt19937 seed) 0)
       else Raise ValueError.

Definition lift {A} (r : result A) : M A :=
  λ g, match r with
       | Ok a => Ok (a, g)
       | Raise e => Raise e
       end.

(** What one replicate computes; the driver then writes these tables to
    files named after [replicate] and [gamma] (lines 113-136, not
    modelled). *)
Record sim_output : Type := mkOutput {
  cascade_size : Stats;
  sn_final : list (list Z);
  sn_initial : list (list Z);
  thresh : list float;
  type_mat_out : list (list float);
  behavior_data_out : behavior_df;
  fitness_size_out : Fitness;
  fitness_behavior_out : Fitness
}.

Definition float_gt (x y : float) : bool := PrimFloat.ltb y x.

(** One pass of the loop body (lines 66-101) at timestep [t]. *)
Definition timestep (n : nat) (gamma psi : float) (timesteps : nat)
    (thresh_mat : list float) (type_mat : list (list float)) (t : nat)
    (st : list (list Z) * Stats * behavior_df)
  : M (list (list Z) * Stats * behavior_df) :=
  let '(adjacency, cascade_size, behavior_data) := st in
  let! sampled := simulate_stim_sampling n gamma psi type_mat thresh_mat in
  let '(stim_sources, state_mat, samplers, samplers_active) := sampled in
  let! state_mat := simulate_cascade adjacency state_mat thresh_mat in
  let! cascade_size :=
    (if ((Z.of_nat t <? 5000) || (Z.of_nat timesteps - 5000 <=? Z.of_nat t))%Z
     then get_cascade_stats t samplers samplers_active state_mat type_mat
                            cascade_size
     else ret cascade_size) in
  let! evaluated :=
    lift (evaluate_behavior float PrimFloat.zero PrimFloat.add PrimFloat.mul
            float_gt state_mat thresh_mat stim_sources type_mat
            behavior_data) in
  let '(correct_state, behavior_data) := evaluated in
  let! adjacency := adjust_tie adjacency state_mat correct_state in
  ret (adjacency, cascade_size, behavior_data).

(** [for t in range(timesteps)], as a loop over the list of timesteps. *)
Fixpoint run_timesteps (step : nat → list (list Z) * Stats * behavior_df →
                               M (list (list Z) * Stats * behavior_df))
    (ts : list nat) (st : list (list Z) * Stats * behavior_df)
  : M (list (list Z) * Stats * behavior_df) :=
  match ts with
  | [] => ret st
  | t :: ts' => let! st' := step t st in run_timesteps step ts' st'
  end.

(** Lines 50-111: everything after the generator has been seeded. *)
Definition simulate_seeded (n k : nat) (gamma psi : float) (timesteps : nat)
    (nt : network_type) : M sim_output :=
  let! thresh_mat := seed_thresholds n 0%float 1%float in
  let! type_mat := assign_type n in
  let! adjacency := seed_social_network n k nt in
  let adjacency_initial := adjacency in
  let behavior_data :=
    mkBehavior (seq 0 n) (replicate n 0%Z) (replicate n 0%Z)
               (replicate n 0%Z) (replicate n 0%Z) in
  let! final :=
    run_timesteps (timestep n gamma psi timesteps thresh_mat type_mat)
                  (seq 0 timesteps) (adjacency, empty_stats, behavior_data) in
  let '(adjacency, cascade_size, behavior_data) := final in
  let! fitness := assess_fitness n gamma psi 10000%Z adjacency thresh_mat
                                 type_mat in
  let '(fitness_behavior, fitness_size) := fitness in
  ret (mkOutput cascade_size adjacency adjacency_initial thresh_mat type_mat
                behavior_data fitness_size fitness_behavior).

Definition sim_adjusting_network (replicate : Z) (n k : nat)
    (gamma psi p : float) (timesteps : nat) (nt : network_type)
  : M sim_output :=
  let! seed := lift (derive_seed replicate gamma) in
  let! _ := np_random_seed seed in
  simulate_seeded n k gamma psi timesteps nt.
(** The cascade propagator hands back state vectors of zeros and ones. *)
Definition binary_cascade : Prop :=
  ∀ network states thresholds g states' g',
    simulate_cascade network states thresholds g = Ok (states', g') →
    ∀ s, s ∈ states' → s = 0%Z ∨ s = 1%Z.

End Driver.

(** A generator whose every raw draw is [r]. *)
Definition const_rng (r : nat) : RandomState := mkRandomState (λ _, r) 0.

(** ** The adjacency matrix: entries, out-degree, self-loops *)

Definition entry (network : list (list Z)) (i j : nat) : option Z :=
  match network !! i with
  | Some row => row !! j
  | None => None
  end.

Definition row_sum (row : list Z) : Z := foldr Z.add 0%Z row.

Definition out_degree (network : list (list Z)) (i : nat) : Z :=
  match network !! i with
  | Some row => row_sum row
  | None => 0%Z
  end.

Definition no_self_loops (network : list (list Z)) : Prop :=
  ∀ i row, network !! i = Some row → row !! i = Some 0%Z.

(** The candidates of the formation step (source lines 205-206) for the
    former [f] whose row is [former_connections]. *)
Definition potential_ties (former_connections : list Z) (f : nat) : list nat :=
  filter (λ j, j ≠ f) (np_where 0 former_connections).

(** The active neighbors of the adjuster (source line 197). *)
Definition perceived_incorrect (states active_row : list Z) : list nat :=
  filter (λ ind, ind ∈ np_where 1 active_row) (np_where 1 states).

(** Exactly one of four flags is set. *)
Definition one_hot (a b c d : bool) : bool :=
  match a, b, c, d with
  | true, false, false, false
  | false, true, false, false
  | false, false, true, false
  | false, false, false, true => true
  | _, _, _, _ => false
  end.

(** The number of individuals a mask selects. *)
Definition count_true (mask : list bool) : nat :=
  length (filter (λ b, b = true) mask).

(** Which positions of its operands [broadcast2] combines at position [i],
    for operands of lengths [n] and [m]. *)
Definition broadcast_index (n m i : nat) : nat * nat :=
  if (n =? m)%nat then (i, i)
  else if (n =? 1)%nat then (0, i) else (i, 0).

(** The number of ties of the whole network. *)
Definition total_ties (network : list (list Z)) : Z :=
  foldr (λ row acc, row_sum row + acc)%Z 0%Z network.

(** Every entry is 0 or 1. *)
Definition is_binary (network : list (list Z)) : Prop :=
  ∀ i j v, entry network i j = Some v → v = 0%Z ∨ v = 1%Z.

(** Two matrices of the same dimensions, row by row. *)
Definition same_shape (network network' : list (list Z)) : Prop :=
  length network' = length network ∧
  ∀ i, length <$> (network' !! i) = length <$> (network !! i).

(** The four counters of individual [i], added up. *)
Definition counter_total (df : behavior_df) (i : nat) : option Z :=
  match true_positive df !! i, true_negative df !! i,
        false_positive df !! i, false_negative df !! i with
  | Some tp, Some tn, Some fp, Some fn => Some (tp + tn + fp + fn)%Z
  | _, _, _, _ => None
  end.

(** The accumulator has [n] rows and every individual's four counters add
    up to [k]. *)
Definition counted (k : Z) (n : nat) (df : behavior_df) : Prop :=
  length (true_positive df) = n ∧ length (true_negative df) = n ∧
  length (false_positive df) = n ∧ length (false_negative df) = n ∧
  ∀ i, i < n → counter_total df i = Some k.

(** What a returning call of [adjust_tie] can have done to the matrix:
    nothing, one removal, or one removal followed by one formation. *)
Inductive adjusted (network : list (list Z)) : list (list Z) → Prop :=
| adjusted_none :
    adjusted network network
| adjusted_break a b :
    entry network a b = Some 1%Z →
    adjusted network (setitem network a b 0)
| adjusted_break_form a b f t :
    entry network a b = Some 1%Z →
    entry (setitem network a b 0) f t = Some 0%Z →
    t ≠ f →
    adjusted network (setitem (setitem network a b 0) f t 1).

(** What [k] returning calls of [adjust_tie] in a row can have done. *)
Inductive adjusted_times : nat → list (list Z) → list (list Z) → Prop :=
| adjusted_times_O network :
    adjusted_times 0 network network
| adjusted_times_S k network network1 network2 :
    adjusted network network1 →
    adjusted_times k network1 network2 →
    adjusted_times (S k) network network2.

(** ** Facts about the primitives *)

Lemma where_from_spec x v : ∀ i j,
  j ∈ where_from i x v ↔ ∃ k, j = i + k ∧ v !! k = Some x.
Proof.
  induction v as [|y v IH]; intros i j; simpl.
  - split; [intros H; inversion H | intros (k & _ & H); discriminate].
  - destruct (Z.eqb_spec y x) as [->|Hne].
    + rewrite elem_of_cons, IH. split.
      * intros [->|(k & -> & Hk)]; [exists 0 | exists (S k)];
          (split; [lia | done]).
      * intros ([|k] & -> & Hk); [left; lia | right; exists k].
        split; [lia | done].
    + rewrite IH. split.
      * intros (k & -> & Hk). exists (S k). split; [lia | done].
      * intros ([|k] & -> & Hk); simpl in Hk; [congruence |].
        exists k. split; [lia | done].
Qed.

Lemma np_where_spec x v j : j ∈ np_where x v ↔ v !! j = Some x.
Proof.
  unfold np_where. rewrite where_from_spec. split.
  - intros (k & -> & Hk). done.
  - intros H. exists j. done.
Qed.

Lemma np_random_choice_Ok {A} (a : list A) g x g' :
  np_random_choice a g = Ok (x, g') →
  a !! (Nat.modulo (stream g (pos g)) (length a)) = Some x ∧
  g' = mkRandomState (stream g) (S (pos g)).
Proof.
  unfold np_random_choice. destruct a as [|y a]; [discriminate |].
  set (l := y :: a). unfold next_draw. intros H.
  injection H as <- <-. split; [| done].
  destruct (nth_lookup_or_length l (Nat.modulo (stream g (pos g)) (length l)) y)
    as [Hl|Hl]; [done |].
  pose proof (Nat.mod_upper_bound (stream g (pos g)) (length l)) as Hb.
  subst l. simpl in *. lia.
Qed.

Lemma np_random_choice_elem {A} (a : list A) g x g' :
  np_random_choice a g = Ok (x, g') → x ∈ a.
Proof.
  intros H. apply np_random_choice_Ok in H as [H _].
  eapply list_elem_of_lookup_2, H.
Qed.

Lemma np_random_choice_nonempty {A} (a : list A) g :
  a ≠ [] →
  ∃ x, np_random_choice a g = Ok (x, mkRandomState (stream g) (S (pos g))).
Proof.
  destruct a as [|y a]; [done |]. intros _. unfold np_random_choice.
  cbn [next_draw]. eauto.
Qed.

Lemma getitem_Ok {A} (v : list A) i g x g' :
  getitem v i g = Ok (x, g') → v !! i = Some x ∧ g' = g.
Proof.
  unfold getitem. destruct (v !! i); [| discriminate]. by intros [= <- <-].
Qed.

Lemma bind_Ok {A B} (c : M A) (k : A → M B) g b g' :
  bind c k g = Ok (b, g') →
  ∃ a g1, c g = Ok (a, g1) ∧ k a g1 = Ok (b, g').
Proof.
  unfold bind. destruct (c g) as [[a g1]|e]; [| discriminate]. eauto.
Qed.

Lemma setitem_lookup_ne network i j x i' :
  i ≠ i' → setitem network i j x !! i' = network !! i'.
Proof. intros H. unfold setitem. by apply list_lookup_alter_ne. Qed.

Lemma setitem_lookup network i j x row :
  network !! i = Some row → setitem network i j x !! i = Some (<[j := x]> row).
Proof. intros H. unfold setitem. by rewrite list_lookup_alter_eq, H. Qed.

Lemma length_setitem network i j x :
  length (setitem network i j x) = length network.
Proof. unfold setitem. apply length_alter. Qed.

Lemma entry_Some network i j v :
  entry network i j = Some v ↔ ∃ row, network !! i = Some row ∧ row !! j = Some v.
Proof.
  unfold entry. destruct (network !! i) as [row|]; split.
  - eauto.
  - intros (r & Hr & H). by injection Hr as ->.
  - discriminate.
  - intros (r & Hr & _). discriminate.
Qed.

Lemma entry_setitem_eq network i j x v :
  entry network i j = Some v → entry (setitem network i j x) i j = Some x.
Proof.
  intros (row & Hr & Hj)%entry_Some. unfold entry.
  rewrite (setitem_lookup _ _ _ _ _ Hr).
  apply list_lookup_insert_eq. by eapply lookup_lt_Some.
Qed.

Lemma entry_setitem_ne network i j x i' j' :
  (i, j) ≠ (i', j') → entry (setitem network i j x) i' j' = entry network i' j'.
Proof.
  intros Hne. unfold entry. destruct (decide (i = i')) as [<-|Hi].
  - destruct (network !! i) as [row|] eqn:Hr.
    + rewrite (setitem_lookup _ _ _ _ _ Hr).
      apply list_lookup_insert_ne. congruence.
    + unfold setitem. by rewrite list_lookup_alter_eq, Hr.
  - by rewrite setitem_lookup_ne.
Qed.

Lemma row_sum_insert row j x old :
  row !! j = Some old → row_sum (<[j := x]> row) = (row_sum row - old + x)%Z.
Proof.
  revert j. induction row as [|y row IH]; intros [|j] H; simpl in *;
    try discriminate.
  - injection H as ->. lia.
  - rewrite (IH _ H). lia.
Qed.

Lemma out_degree_setitem network i j x old i' :
  entry network i j = Some old →
  out_degree (setitem network i j x) i' =
  if decide (i = i') then (out_degree network i' - old + x)%Z
  else out_degree network i'.
Proof.
  intros (row & Hr & Hj)%entry_Some. unfold out_degree.
  destruct (decide (i = i')) as [<-|Hi].
  - rewrite (setitem_lookup _ _ _ _ _ Hr), Hr. by apply row_sum_insert.
  - by rewrite setitem_lookup_ne.
Qed.

(** Every returning call of [adjust_tie] is one of the three outcomes. *)
Lemma adjust_tie_adjusted network states correct_behavior g network' g' :
  adjust_tie network states correct_behavior g = Ok (network', g') →
  adjusted network network'.
Proof.
  unfold adjust_tie.
  destruct (0 <? py_sum (np_where 1 states))%nat;
    [| intros [= <- _]; constructor].
  intros (a & g1 & Ha & H)%bind_Ok.
  apply bind_Ok in H as (c & g2 & Hc & H).
  apply bind_Ok in H as (row & g3 & Hrow & H).
  apply getitem_Ok in Hrow as [Hrow ->].
  destruct c; simpl negb in H; cbv iota in H; [injection H as <- _; constructor |].
  apply bind_Ok in H as (b & g4 & Hb & H).
  apply np_random_choice_elem in Hb.
  apply list_elem_of_filter in Hb as [Hb _].
  apply np_where_spec in Hb.
  assert (Hab : entry network a b = Some 1%Z) by (apply entry_Some; eauto).
  apply bind_Ok in H as (f & g5 & Hf & H).
  apply bind_Ok in H as (frow & g6 & Hfrow & H).
  apply getitem_Ok in Hfrow as [Hfrow ->].
  match type of H with
  | (if (0 <? length ?l)%nat then _ else _) _ = _ => set (cands := l) in *
  end.
  destruct (0 <? length cands)%nat.
  - apply bind_Ok in H as (t & g7 & Ht & H). injection H as <- _.
    apply np_random_choice_elem in Ht.
    apply list_elem_of_filter in Ht as [Hne Ht].
    apply np_where_spec in Ht.
    apply adjusted_break_form; [done | | done].
    apply entry_Some. eauto.
  - injection H as <- _. by apply adjusted_break.
Qed.

Lemma no_self_loops_setitem network i j x :
  no_self_loops network → (i = j → x = 0%Z) →
  no_self_loops (setitem network i j x).
Proof.
  intros Hd Hx k row Hk. destruct (decide (i = k)) as [<-|Hik].
  - destruct (network !! i) as [r|] eqn:Hr.
    + rewrite (setitem_lookup _ _ _ _ _ Hr) in Hk. injection Hk as <-.
      pose proof (Hd _ _ Hr) as Hii. destruct (decide (j = i)) as [->|Hji].
      * rewrite Hx by done. apply list_lookup_insert_eq.
        by eapply lookup_lt_Some.
      * by rewrite list_lookup_insert_ne.
    + unfold setitem in Hk. rewrite list_lookup_alter_eq, Hr in Hk.
      discriminate.
  - rewrite setitem_lookup_ne in Hk by done. by apply Hd.
Qed.

Lemma entry_diag_setitem network i j x k :
  (i = j → x ≠ 1%Z) →
  entry (setitem network i j x) k k = Some 1%Z → entry network k k = Some 1%Z.
Proof.
  intros Hx H. destruct (decide ((i, j) = (k, k))) as [Heq|Hne].
  - injection Heq as -> ->.
    destruct (entry network k k) as [v|] eqn:Hv.
    + rewrite (entry_setitem_eq _ _ _ _ _ Hv) in H. injection H as ->.
      by destruct Hx.
    + apply entry_Some in H as (row & Hr & Hk).
      unfold setitem in Hr. rewrite list_lookup_alter_eq in Hr.
      destruct (network !! k) as [r|] eqn:Hnk; [| discriminate].
      injection Hr as <-. unfold entry in Hv. rewrite Hnk in Hv.
      apply lookup_lt_Some in Hk. rewrite length_insert in Hk.
      apply lookup_ge_None in Hv. lia.
  - by rewrite entry_setitem_ne in H.
Qed.

(** ** Properties of the tie adjuster *)

(** C5. A returning call of [adjust_tie] keeps a zero diagonal: a network
    without self-loops is returned without self-loops, and on any network
    no diagonal entry is 1 after the call unless it was 1 before it. *)
Theorem adjust_tie_no_self_loops
    (network : list (list Z)) (states : list Z) (correct_behavior : list bool)
    (g : RandomState) (network' : list (list Z)) (g' : RandomState) :
  adjust_tie network states correct_behavior g = Ok (network', g') →
  (no_self_loops network → no_self_loops network') ∧
  (∀ i, entry network' i i = Some 1%Z → entry network i i = Some 1%Z).
Proof.
  intros H. apply adjust_tie_adjusted in H.
  destruct H as [|a b Hab|a b f t Hab Hft Hne].
  - done.
  - split.
    + intros Hd. by apply no_self_loops_setitem.
    + intros i. by apply entry_diag_setitem.
  - split.
    + intros Hd. apply no_self_loops_setitem; [| by intros ->].
      by apply no_self_loops_setitem.
    + intros i Hi. apply entry_diag_setitem in Hi; [| by intros ->].
      by apply entry_diag_setitem in Hi.
Qed.

Lemma adjust_tie_no_self_loops_witness :
  no_self_loops [[0;1;0];[0;0;1];[0;0;0]]%Z.
Proof.
  refine (proj1 (adjust_tie_no_self_loops
            [[0;1;0];[1;0;0];[0;0;0]]%Z [1;1;0]%Z [false;false;true]
            (const_rng 1) _ _ _) _).
  - vm_compute. reflexivity.
  - intros [|[|[|i]]] row H; simpl in H; try discriminate;
      injection H as <-; reflexivity.
Defined.

(** C7. In a returning call of [adjust_tie] the out-degree (row sum) of
    every individual changes by at most 1, in either direction. *)
Theorem adjust_tie_out_degree
    (network : list (list Z)) (states : list Z) (correct_behavior : list bool)
    (g : RandomState) (network' : list (list Z)) (g' : RandomState) :
  adjust_tie network states correct_behavior g = Ok (network', g') →
  ∀ i, (-1 ≤ out_degree network' i - out_degree network i ≤ 1)%Z.
Proof.
  intros H i. apply adjust_tie_adjusted in H.
  destruct H as [|a b Hab|a b f t Hab Hft Hne].
  - lia.
  - rewrite (out_degree_setitem _ _ _ _ _ _ Hab). case_decide; lia.
  - rewrite (out_degree_setitem _ _ _ _ _ _ Hft).
    rewrite (out_degree_setitem _ _ _ _ _ _ Hab).
    repeat case_decide; lia.
Qed.

Lemma adjust_tie_out_degree_witness :
  (-1 ≤ out_degree [[0;0;0];[1;0;0];[0;1;0]] 2
        - out_degree [[0;1;0];[1;0;0];[0;0;0]] 2 ≤ 1)%Z.
Proof.
  apply (adjust_tie_out_degree
           [[0;1;0];[1;0;0];[0;0;0]]%Z [1;1;0]%Z [false;false;true]
           (mkRandomState (λ k, k) 0) _ (mkRandomState (λ k, k) 4)).
  vm_compute. reflexivity.
Defined.

(** C9. A returning call of [adjust_tie] changes at most two entries.
    Either the network is returned as it was, or, with [a] the adjuster the
    first draw selects among the active individuals (active, incorrect) and
    [b] the neighbor the second draw selects among the active neighbors of
    [a]: the entry ([a], [b]) was 1 and is set to 0; and with [f] the former
    the third draw selects among all individuals, either [f] has no
    candidate and nothing else changes, or, with [t] the target the fourth
    draw selects among the candidates of [f], the entry ([f], [t]) was 0
    after the removal and is set to 1.  Every entry other than ([a], [b])
    and ([f], [t]) is as in the input. *)
Theorem adjust_tie_frame
    (network : list (list Z)) (states : list Z) (correct_behavior : list bool)
    (g : RandomState) (network' : list (list Z)) (g' : RandomState) :
  adjust_tie network states correct_behavior g = Ok (network', g') →
  network' = network ∨
  ∃ a b active_row f former_row,
    np_where 1 states
      !! (Nat.modulo (stream g (pos g)) (length (np_where 1 states)))
    = Some a ∧
    states !! a = Some 1%Z ∧
    correct_behavior !! a = Some false ∧
    network !! a = Some active_row ∧
    perceived_incorrect states active_row
      !! (Nat.modulo (stream g (S (pos g)))
                     (length (perceived_incorrect states active_row)))
    = Some b ∧
    states !! b = Some 1%Z ∧
    entry network a b = Some 1%Z ∧
    f = Nat.modulo (stream g (S (S (pos g)))) (length network) ∧
    setitem network a b 0 !! f = Some former_row ∧
    ((potential_ties former_row f = [] ∧
      network' = setitem network a b 0 ∧
      entry network' a b = Some 0%Z ∧
      (∀ i j, (i, j) ≠ (a, b) → entry network' i j = entry network i j)) ∨
     (∃ t,
        potential_ties former_row f
          !! (Nat.modulo (stream g (S (S (S (pos g)))))
                         (length (potential_ties former_row f)))
        = Some t ∧
        t ≠ f ∧
        entry (setitem network a b 0) f t = Some 0%Z ∧
        network' = setitem (setitem network a b 0) f t 1 ∧
        entry network' f t = Some 1%Z ∧
        ((f, t) ≠ (a, b) →
           entry network' a b = Some 0%Z ∧ entry network f t = Some 0%Z) ∧
        (∀ i j, (i, j) ≠ (a, b) → (i, j) ≠ (f, t) →
                entry network' i j = entry network i j))).
Proof.
  unfold adjust_tie.
  destruct (0 <? py_sum (np_where 1 states))%nat;
    [| intros [= <- _]; by left].
  intros (a & g1 & Ha & H)%bind_Ok.
  apply np_random_choice_Ok in Ha as [Ha ->].
  apply bind_Ok in H as (c & g2 & Hc & H).
  apply getitem_Ok in Hc as [Hc ->].
  apply bind_Ok in H as (row & g3 & Hrow & H).
  apply getitem_Ok in Hrow as [Hrow ->].
  destruct c; simpl negb in H; cbv iota in H;
    [injection H as <- _; by left |].
  cbv zeta in H. fold (perceived_incorrect states row) in H.
  apply bind_Ok in H as (b & g4 & Hb & H).
  apply np_random_choice_Ok in Hb as [Hb ->]. cbn [stream pos] in Hb, H.
  apply bind_Ok in H as (f & g5 & Hf & H).
  apply np_random_choice_Ok in Hf as [Hf ->]. cbn [stream pos] in Hf, H.
  apply lookup_seq in Hf as [Hf _].
  rewrite length_seq, length_setitem in Hf. simpl in Hf.
  apply bind_Ok in H as (frow & g6 & Hfrow & H).
  apply getitem_Ok in Hfrow as [Hfrow ->].
  fold (potential_ties frow f) in H.
  assert (Haact : states !! a = Some 1%Z)
    by (apply np_where_spec; eapply list_elem_of_lookup_2, Ha).
  assert (Hbin : b ∈ perceived_incorrect states row)
    by (eapply list_elem_of_lookup_2, Hb).
  apply list_elem_of_filter in Hbin as [Hbnb Hbact].
  apply np_where_spec in Hbnb. apply np_where_spec in Hbact.
  assert (Hab : entry network a b = Some 1%Z) by (apply entry_Some; eauto).
  right. exists a, b, row, f, frow.
  repeat (split; [done |]).
  destruct (potential_ties frow f) as [|t0 cands] eqn:Ecands;
    cbn [length Nat.ltb Nat.leb] in H.
  - injection H as <- _. left. split; [done |]. split; [done |].
    split; [by eapply entry_setitem_eq |].
    intros i j Hij. by apply entry_setitem_ne.
  - apply bind_Ok in H as (t & g7 & Ht & H). injection H as <- _.
    apply np_random_choice_Ok in Ht as [Ht _]. cbn [stream pos] in Ht.
    assert (Htin : t ∈ potential_ties frow f)
      by (rewrite Ecands; eapply list_elem_of_lookup_2, Ht).
    apply list_elem_of_filter in Htin as [Hne Htz].
    apply np_where_spec in Htz.
    assert (Hft : entry (setitem network a b 0) f t = Some 0%Z)
      by (apply entry_Some; eauto).
    right. exists t. split; [done |]. split; [done |]. split; [done |].
    split; [done |]. split; [by eapply entry_setitem_eq |]. split.
    + intros Hdiff. split.
      * rewrite entry_setitem_ne by done. by eapply entry_setitem_eq.
      * rewrite <- Hft. symmetry. apply entry_setitem_ne. congruence.
    + intros i j Hij1 Hij2. by rewrite !entry_setitem_ne.
Qed.

Lemma adjust_tie_frame_witness :
  entry [[0;1;0];[0;0;1];[0;0;0]]%Z 1 0 = Some 0%Z ∧
  entry [[0;1;0];[0;0;1];[0;0;0]]%Z 1 2 = Some 1%Z ∧
  entry [[0;1;0];[0;0;1];[0;0;0]]%Z 0 1
  = entry [[0;1;0];[1;0;0];[0;0;0]]%Z 0 1.
Proof.
  destruct (adjust_tie_frame
              [[0;1;0];[1;0;0];[0;0;0]]%Z [1;1;0]%Z [false;false;true]
              (const_rng 1) [[0;1;0];[0;0;1];[0;0;0]]%Z
              (mkRandomState (λ _, 1) 4) eq_refl)
    as [Hsame | (a & b & arow & f & frow & Ha & _ & _ & Harow & Hb & _ & _ &
                 Hf & Hfrow & Hcase)].
  - discriminate Hsame.
  - vm_compute in Ha. injection Ha as <-.
    vm_compute in Harow. injection Harow as <-.
    vm_compute in Hb. injection Hb as <-.
    vm_compute in Hf. subst f.
    vm_compute in Hfrow. injection Hfrow as <-.
    destruct Hcase as [(Hnil & _) | (t & Ht & _ & _ & _ & Hnew & Hold & Hrest)].
    + vm_compute in Hnil. discriminate Hnil.
    + vm_compute in Ht. injection Ht as <-.
      split; [apply Hold; discriminate |]. split; [exact Hnew |].
      apply Hrest; discriminate.
Defined.

(** C6. In a call of [adjust_tie] that reaches the formation step, with
    former [f]: the candidates are the individuals other than [f] to whom
    [f] has no tie (entry 0) in the network as the removal left it.  If
    there is a candidate, the one at the position of the next raw draw is
    selected and the call returns the network with that one entry set to 1;
    if there is none, the call returns the network as the removal left it. *)
Theorem adjust_tie_formation
    (network : list (list Z)) (states : list Z) (correct_behavior : list bool)
    (g g1 g2 g3 : RandomState) (a b f : nat) (active_row former_row : list Z) :
  (0 < py_sum (np_where 1 states))%nat →
  np_random_choice (np_where 1 states) g = Ok (a, g1) →
  correct_behavior !! a = Some false →
  network !! a = Some active_row →
  np_random_choice (perceived_incorrect states active_row) g1 = Ok (b, g2) →
  np_random_choice (seq 0 (length (setitem network a b 0))) g2 = Ok (f, g3) →
  setitem network a b 0 !! f = Some former_row →
  (∀ j, j ∈ potential_ties former_row f ↔
        j ≠ f ∧ entry (setitem network a b 0) f j = Some 0%Z) ∧
  (potential_ties former_row f ≠ [] →
     ∃ t, potential_ties former_row f
            !! (Nat.modulo (stream g3 (pos g3))
                           (length (potential_ties former_row f))) = Some t ∧
          adjust_tie network states correct_behavior g
          = Ok (setitem (setitem network a b 0) f t 1,
                mkRandomState (stream g3) (S (pos g3))) ∧
          entry (setitem (setitem network a b 0) f t 1) f t = Some 1%Z) ∧
  (potential_ties former_row f = [] →
     adjust_tie network states correct_behavior g
     = Ok (setitem network a b 0, g3)).
Proof.
  intros Hsum Ha Hc Hrow Hb Hf Hfrow.
  assert (Hrun : adjust_tie network states correct_behavior g =
                 (if (0 <? length (potential_ties former_row f))%nat
                  then let! new_tie :=
                         np_random_choice (potential_ties former_row f) in
                       ret (setitem (setitem network a b 0) f new_tie 1)
                  else ret (setitem network a b 0)) g3).
  { unfold adjust_tie. apply Nat.ltb_lt in Hsum. rewrite Hsum.
    unfold bind at 1. rewrite Ha.
    unfold bind at 1. unfold getitem at 1. rewrite Hc.
    unfold bind at 1. unfold getitem at 1. rewrite Hrow.
    cbn [negb]. cbv zeta.
    unfold bind at 1. fold (perceived_incorrect states active_row).
    rewrite Hb.
    unfold bind at 1. rewrite Hf.
    unfold bind at 1. unfold getitem at 1. rewrite Hfrow.
    reflexivity. }
  assert (Hcand : ∀ j, j ∈ potential_ties former_row f ↔
                       j ≠ f ∧ entry (setitem network a b 0) f j = Some 0%Z).
  { intros j. unfold potential_ties. rewrite list_elem_of_filter, np_where_spec.
    unfold entry. rewrite Hfrow. done. }
  split; [done |]. split.
  - intros Hne.
    destruct (np_random_choice_nonempty _ g3 Hne) as [t Ht].
    pose proof (np_random_choice_Ok _ _ _ _ Ht) as [Hpos _].
    exists t. split; [done |]. split.
    + rewrite Hrun.
      destruct (potential_ties former_row f) eqn:E; [done |].
      cbn [length Nat.ltb Nat.leb]. unfold bind. rewrite Ht. reflexivity.
    + assert (Hin : t ∈ potential_ties former_row f)
        by (eapply list_elem_of_lookup_2, Hpos).
      apply Hcand in Hin as [_ Hin]. by eapply entry_setitem_eq.
  - intros Hnil. rewrite Hrun, Hnil. reflexivity.
Qed.

Lemma adjust_tie_formation_witness :
  adjust_tie [[0;1;0];[1;0;0];[0;0;0]]%Z [1;1;0]%Z [false;false;true]
             (const_rng 1)
  = Ok ([[0;1;0];[0;0;1];[0;0;0]]%Z, mkRandomState (λ _, 1) 4).
Proof.
  assert (Hsum : (0 < py_sum (np_where 1 [1;1;0]%Z))%nat)
    by (vm_compute; lia).
  destruct (adjust_tie_formation
              [[0;1;0];[1;0;0];[0;0;0]]%Z [1;1;0]%Z [false;false;true]
              (const_rng 1) (mkRandomState (λ _, 1) 1)
              (mkRandomState (λ _, 1) 2) (mkRandomState (λ _, 1) 3)
              1 0 1 [1;0;0]%Z [0;0;0]%Z
              Hsum eq_refl eq_refl eq_refl eq_refl eq_refl eq_refl)
    as (_ & H & _).
  destruct H as (t & Ht & Hrun & _); [vm_compute; discriminate |].
  vm_compute in Ht. injection Ht as <-. exact Hrun.
Defined.

(** When the guard is passed and the selected adjuster behaved incorrectly
    but has no active neighbor, the removal step draws from an empty list:
    the call raises and returns no network. *)
Lemma adjust_tie_empty_choice
    (network : list (list Z)) (states : list Z) (correct_behavior : list bool)
    (g g1 : RandomState) (a : nat) (active_row : list Z) :
  (0 < py_sum (np_where 1 states))%nat →
  np_random_choice (np_where 1 states) g = Ok (a, g1) →
  correct_behavior !! a = Some false →
  network !! a = Some active_row →
  perceived_incorrect states active_row = [] →
  adjust_tie network states correct_behavior g = Raise ValueError.
Proof.
  intros Hsum Ha Hc Hrow Hnil.
  unfold adjust_tie. apply Nat.ltb_lt in Hsum. rewrite Hsum.
  unfold bind at 1. rewrite Ha.
  unfold bind at 1. unfold getitem at 1. rewrite Hc.
  unfold bind at 1. unfold getitem at 1. rewrite Hrow.
  cbn [negb]. cbv zeta.
  unfold bind at 1. fold (perceived_incorrect states active_row).
  rewrite Hnil. reflexivity.
Qed.

(** C1. The claim (an incorrect adjuster without active neighbors leaves
    the network unchanged and nothing is raised) fails on the code:
    individual 1 is the only active individual, behaved incorrectly and has
    no tie at all; whatever the generator draws, the call raises
    [ValueError] from the unguarded choice of source line 198. *)
Theorem adjust_tie_no_active_neighbor_raises (g : RandomState) :
  adjust_tie [[0;0];[0;0]]%Z [0;1]%Z [false;false] g = Raise ValueError.
Proof.
  apply (adjust_tie_empty_choice _ _ _ g
           (mkRandomState (stream g) (S (pos g))) 1 [0;0]%Z).
  - vm_compute. lia.
  - reflexivity.
  - reflexivity.
  - reflexivity.
  - reflexivity.
Qed.

(** The guard of source line 190 tests the sum of the active indices, not
    their number: it is passed exactly when some individual other than
    individual 0 is active. *)
Lemma guard_passed_iff (states : list Z) :
  (0 < py_sum (np_where 1 states))%nat ↔
  ∃ i, i ≠ 0 ∧ states !! i = Some 1%Z.
Proof.
  assert (Hsum : ∀ l, (0 < py_sum l)%nat ↔ ∃ i, i ≠ 0 ∧ i ∈ l).
  { induction l as [|x l IH]; simpl.
    - split; [lia | intros (i & _ & H); inversion H].
    - split.
      + intros H. destruct x as [|x].
        * destruct (proj1 IH) as (i & Hi & Hin); [simpl in H; lia |].
          exists i. split; [done |]. by right.
        * exists (S x). split; [lia | by left].
      + intros (i & Hi & Hin). apply elem_of_cons in Hin as [->|Hin].
        * lia.
        * assert (0 < py_sum l)%nat by (apply IH; eauto). lia. }
  rewrite Hsum. by setoid_rewrite np_where_spec.
Qed.

(** With no active individual the call returns the network as it is. *)
Lemma adjust_tie_no_active
    (network : list (list Z)) (states : list Z) (correct_behavior : list bool)
    (g : RandomState) :
  np_where 1 states = [] →
  adjust_tie network states correct_behavior g = Ok (network, g).
Proof. intros H. unfold adjust_tie. rewrite H. reflexivity. Qed.

(** When individual 0 is the only active individual the guard is not
    passed either: nobody is selected and no draw is consumed. *)
Lemma adjust_tie_only_first_active
    (network : list (list Z)) (states : list Z) (correct_behavior : list bool)
    (g : RandomState) :
  np_where 1 states = [0] →
  adjust_tie network states correct_behavior g = Ok (network, g).
Proof. intros H. unfold adjust_tie. rewrite H. reflexivity. Qed.

(** C2. The claim (whenever somebody is active, also when it is only
    individual 0, the guard is passed and an adjuster is drawn) fails on
    the code: with individual 0 the only active one, the call returns at
    the guard with the generator untouched, while the same population with
    individual 1 active instead does draw its adjuster. *)
Theorem adjust_tie_skips_individual_zero (g : RandomState) :
  adjust_tie [[0;1];[1;0]]%Z [1;0]%Z [true;true] g
  = Ok ([[0;1];[1;0]]%Z, g) ∧
  adjust_tie [[0;1];[1;0]]%Z [0;1]%Z [true;true] g
  = Ok ([[0;1];[1;0]]%Z, mkRandomState (stream g) (S (pos g))).
Proof. split; reflexivity. Qed.

(** ** Facts about broadcasting and the accumulator columns *)

Lemma rbind_Ok {A B} (r : result A) (k : A → result B) b :
  rbind r k = Ok b → ∃ a, r = Ok a ∧ k a = Ok b.
Proof. destruct r as [a|e]; [eauto | discriminate]. Qed.

Lemma broadcast2_Ok {A B C} (f : A → B → C) xs ys zs :
  broadcast2 f xs ys = Ok zs →
  ∀ i, i < length zs →
    ∃ x y, xs !! (broadcast_index (length xs) (length ys) i).1 = Some x ∧
           ys !! (broadcast_index (length xs) (length ys) i).2 = Some y ∧
           zs !! i = Some (f x y).
Proof.
  unfold broadcast2, broadcast_index.
  destruct (Nat.eqb_spec (length xs) (length ys)) as [E|E].
  - intros [= <-] i Hi. rewrite length_zip_with in Hi.
    destruct (lookup_lt_is_Some_2 xs i) as [x Hx]; [lia |].
    destruct (lookup_lt_is_Some_2 ys i) as [y Hy]; [lia |].
    exists x, y. simpl. rewrite lookup_zip_with, Hx. simpl. by rewrite Hy.
  - destruct xs as [|x [|x' xs]].
    + destruct ys as [|y [|y' ys]]; try discriminate; try done.
      intros [= <-] i Hi. simpl in Hi. lia.
    + intros [= <-] i Hi. rewrite length_map in Hi.
      destruct (lookup_lt_is_Some_2 ys i) as [y Hy]; [lia |].
      exists x, y. simpl. rewrite list_lookup_fmap, Hy. done.
    + destruct ys as [|y [|y' ys]]; try discriminate.
      remember (x :: x' :: xs) as l eqn:El.
      intros H. injection H as <-. intros i Hi. rewrite length_map in Hi.
      destruct (lookup_lt_is_Some_2 l i) as [z Hz]; [lia |].
      exists z, y. destruct (Nat.eqb_spec (length l) 1) as [E1|E1];
        [subst l; simpl in E1; lia |].
      cbn [fst snd]. rewrite list_lookup_fmap, Hz. done.
Qed.

Lemma broadcast2_length {A B C} (f : A → B → C) {A' B' C'}
    (f' : A' → B' → C') xs ys zs xs' ys' zs' :
  broadcast2 f xs ys = Ok zs → broadcast2 f' xs' ys' = Ok zs' →
  length xs = length xs' → length ys = length ys' →
  length zs = length zs'.
Proof.
  unfold broadcast2. intros H H' Ex Ey. rewrite <- Ex, <- Ey in H'.
  destruct (length xs =? length ys)%nat.
  - injection H as <-. injection H' as <-.
    rewrite !length_zip_with. lia.
  - destruct xs as [|x [|? xs]], xs' as [|x' [|? xs']]; try discriminate;
      destruct ys as [|y [|? ys]], ys' as [|y' [|? ys']]; try discriminate;
      injection H as <-; injection H' as <-;
      simpl in *; rewrite ?length_map; lia.
Qed.

Lemma add_mask_Ok (column : list Z) (mask : list bool) (column' : list Z) :
  add_mask column mask = Ok column' →
  length column = length mask ∧ length column' = length mask ∧
  ∀ (i : nat) (c : Z) (b : bool),
    column !! i = Some c → mask !! i = Some b →
    column' !! i = Some (if b then c + 1 else c)%Z.
Proof.
  unfold add_mask. destruct (Nat.eqb_spec (length column) (length mask));
    [| discriminate].
  intros [= <-]. split; [done |]. split.
  - rewrite length_zip_with. lia.
  - intros i c b Hc Hb. rewrite lookup_zip_with, Hc. simpl. by rewrite Hb.
Qed.

Lemma count_true_cons b mask :
  count_true (b :: mask) = (if b then 1 else 0) + count_true mask.
Proof.
  unfold count_true. rewrite filter_cons. destruct b; case_decide; simpl;
    congruence.
Qed.

(** Four masks of one length that are one-hot at every position select,
    between them, every position once. *)
Lemma count_true_partition : ∀ m1 m2 m3 m4 : list bool,
  length m2 = length m1 → length m3 = length m1 → length m4 = length m1 →
  (∀ i b1 b2 b3 b4, m1 !! i = Some b1 → m2 !! i = Some b2 →
     m3 !! i = Some b3 → m4 !! i = Some b4 → one_hot b1 b2 b3 b4 = true) →
  count_true m1 + count_true m2 + count_true m3 + count_true m4 = length m1.
Proof.
  induction m1 as [|b1 m1 IH]; intros [|b2 m2] [|b3 m3] [|b4 m4] E2 E3 E4 H;
    try discriminate; [reflexivity |].
  rewrite !count_true_cons. simpl length.
  specialize (IH m2 m3 m4). rewrite <- IH.
  - pose proof (H 0 b1 b2 b3 b4 eq_refl eq_refl eq_refl eq_refl) as H0.
    destruct b1, b2, b3, b4; try discriminate; lia.
  - by injection E2.
  - by injection E3.
  - by injection E4.
  - intros i ? ? ? ? ? ? ? ?. by apply (H (S i)).
Qed.

Lemma error_masks_Ok (states : list Z) (correct_behavior : list bool) ms :
  (∀ s, s ∈ states → s = 0%Z ∨ s = 1%Z) →
  error_masks states correct_behavior = Ok ms →
  length (m_true_negative ms) = length (m_true_positive ms) ∧
  length (m_false_positive ms) = length (m_true_positive ms) ∧
  length (m_false_negative ms) = length (m_true_positive ms) ∧
  ∀ i b1 b2 b3 b4,
    m_true_positive ms !! i = Some b1 → m_true_negative ms !! i = Some b2 →
    m_false_positive ms !! i = Some b3 → m_false_negative ms !! i = Some b4 →
    one_hot b1 b2 b3 b4 = true.
Proof.
  intros Hbin. unfold error_masks.
  intros (tp & Htp & H)%rbind_Ok.
  apply rbind_Ok in H as (tn & Htn & H).
  apply rbind_Ok in H as (fp & Hfp & H).
  apply rbind_Ok in H as (fn & Hfn & H).
  injection H as <-. cbn [m_true_positive m_true_negative m_false_positive
                          m_false_negative].
  repeat split.
  - eapply broadcast2_length; eauto; by rewrite !length_map.
  - eapply broadcast2_length; eauto; by rewrite !length_map.
  - eapply broadcast2_length; eauto; by rewrite !length_map.
  - intros i b1 b2 b3 b4 H1 H2 H3 H4.
    destruct (broadcast2_Ok _ _ _ _ Htp i) as (x1 & y1 & Hx1 & Hy1 & E1);
      [by eapply lookup_lt_Some |].
    destruct (broadcast2_Ok _ _ _ _ Htn i) as (x2 & y2 & Hx2 & Hy2 & E2);
      [by eapply lookup_lt_Some |].
    destruct (broadcast2_Ok _ _ _ _ Hfp i) as (x3 & y3 & Hx3 & Hy3 & E3);
      [by eapply lookup_lt_Some |].
    destruct (broadcast2_Ok _ _ _ _ Hfn i) as (x4 & y4 & Hx4 & Hy4 & E4);
      [by eapply lookup_lt_Some |].
    rewrite !length_map in *.
    set (k := broadcast_index (length states) (length correct_behavior) i)
      in *.
    rewrite list_lookup_fmap in Hx1, Hx2, Hx3, Hx4.
    rewrite list_lookup_fmap in Hy2, Hy3.
    destruct (states !! k.1) as [s|] eqn:Hs; [| discriminate].
    destruct (correct_behavior !! k.2) as [c|]; [| discriminate].
    simpl in *.
    assert (Hs01 : s = 0%Z ∨ s = 1%Z)
      by (apply Hbin; eapply list_elem_of_lookup_2, Hs).
    assert (b1 = andb (s =? 1)%Z c) by congruence.
    assert (b2 = andb (s =? 0)%Z (negb c)) by congruence.
    assert (b3 = andb (s =? 1)%Z (negb c)) by congruence.
    assert (b4 = andb (s =? 0)%Z c) by congruence.
    subst b1 b2 b3 b4. destruct Hs01 as [-> | ->], c; reflexivity.
Qed.

Section ScalarFacts.
Variable scalar : Type.
Variable zero : scalar.
Variable add mul : scalar → scalar → scalar.
Variable gt : scalar → scalar → bool.

Local Abbreviation dot1 := (dot_row scalar zero add mul).
Local Abbreviation dot := (np_dot scalar zero add mul).
Local Abbreviation evaluate := (evaluate_behavior scalar zero add mul gt).

Lemma np_dot_Ok types stimuli true_stim :
  dot types stimuli = Ok true_stim →
  length true_stim = length types ∧
  ∀ i row, types !! i = Some row →
    ∃ x, dot1 row stimuli = Ok x ∧ true_stim !! i = Some x.
Proof.
  revert true_stim. induction types as [|r types IH]; intros ts; simpl.
  - intros [= <-]. split; [done |]. intros i row H. discriminate.
  - intros (x & Hx & H)%rbind_Ok.
    apply rbind_Ok in H as (xs & Hxs & H). injection H as <-.
    destruct (IH _ Hxs) as [Hlen Hrows]. split; [simpl; lia |].
    intros [|i] row Hrow; simpl in *.
    + injection Hrow as <-. eauto.
    + by apply Hrows.
Qed.

Lemma evaluate_behavior_Ok states thresholds stimuli types df cb df' :
  evaluate states thresholds stimuli types df = Ok (cb, df') →
  ∃ true_stim ms,
    dot types stimuli = Ok true_stim ∧
    broadcast2 gt true_stim thresholds = Ok cb ∧
    error_masks states cb = Ok ms ∧
    add_mask (true_positive df) (m_true_positive ms)
      = Ok (true_positive df') ∧
    add_mask (true_negative df) (m_true_negative ms)
      = Ok (true_negative df') ∧
    add_mask (false_positive df) (m_false_positive ms)
      = Ok (false_positive df') ∧
    add_mask (false_negative df) (m_false_negative ms)
      = Ok (false_negative df').
Proof.
  unfold evaluate_behavior.
  intros (ts & Hts & H)%rbind_Ok.
  apply rbind_Ok in H as (cb0 & Hcb & H).
  apply rbind_Ok in H as (ms & Hms & H).
  apply rbind_Ok in H as (tp & Htp & H).
  apply rbind_Ok in H as (tn & Htn & H).
  apply rbind_Ok in H as (fp & Hfp & H).
  apply rbind_Ok in H as (fn & Hfn & H).
  injection H as <- <-. exists ts, ms. done.
Qed.

(** In a returning call of [evaluate_behavior] on a binary state vector
    the four masks have one length, every position is in exactly one of
    them, the four counters of every position together grow by exactly 1,
    and the four counts add up to that length. *)
Lemma evaluate_behavior_partition_returning
    (states : list Z) (thresholds stimuli : list scalar)
    (types : list (list scalar)) (df : behavior_df)
    (cb : list bool) (df' : behavior_df) :
  (∀ s, s ∈ states → s = 0%Z ∨ s = 1%Z) →
  evaluate states thresholds stimuli types df = Ok (cb, df') →
  ∃ ms, error_masks states cb = Ok ms ∧
    length (m_true_negative ms) = length (m_true_positive ms) ∧
    length (m_false_positive ms) = length (m_true_positive ms) ∧
    length (m_false_negative ms) = length (m_true_positive ms) ∧
    (length states = length cb →
     length (m_true_positive ms) = length states) ∧
    (∀ i, i < length (m_true_positive ms) →
       ∃ b1 b2 b3 b4,
         m_true_positive ms !! i = Some b1 ∧
         m_true_negative ms !! i = Some b2 ∧
         m_false_positive ms !! i = Some b3 ∧
         m_false_negative ms !! i = Some b4 ∧
         one_hot b1 b2 b3 b4 = true) ∧
    (∀ i, i < length (m_true_positive ms) →
       ∃ tp tn fp fn tp' tn' fp' fn',
         true_positive df !! i = Some tp ∧
         true_negative df !! i = Some tn ∧
         false_positive df !! i = Some fp ∧
         false_negative df !! i = Some fn ∧
         true_positive df' !! i = Some tp' ∧
         true_negative df' !! i = Some tn' ∧
         false_positive df' !! i = Some fp' ∧
         false_negative df' !! i = Some fn' ∧
         (tp' + tn' + fp' + fn' = tp + tn + fp + fn + 1)%Z) ∧
    count_true (m_true_positive ms) + count_true (m_true_negative ms)
    + count_true (m_false_positive ms) + count_true (m_false_negative ms)
    = length (m_true_positive ms).
Proof.
  intros Hbin H.
  apply evaluate_behavior_Ok in H
    as (ts & ms & _ & _ & Hms & Htp & Htn & Hfp & Hfn).
  exists ms. split; [done |].
  destruct (error_masks_Ok _ _ _ Hbin Hms) as (L2 & L3 & L4 & Hone).
  assert (Hat : ∀ i, i < length (m_true_positive ms) →
            ∃ b1 b2 b3 b4,
              m_true_positive ms !! i = Some b1 ∧
              m_true_negative ms !! i = Some b2 ∧
              m_false_positive ms !! i = Some b3 ∧
              m_false_negative ms !! i = Some b4 ∧
              one_hot b1 b2 b3 b4 = true).
  { intros i Hi.
    destruct (lookup_lt_is_Some_2 (m_true_positive ms) i) as [b1 H1];
      [lia |].
    destruct (lookup_lt_is_Some_2 (m_true_negative ms) i) as [b2 H2];
      [lia |].
    destruct (lookup_lt_is_Some_2 (m_false_positive ms) i) as [b3 H3];
      [lia |].
    destruct (lookup_lt_is_Some_2 (m_false_negative ms) i) as [b4 H4];
      [lia |].
    exists b1, b2, b3, b4. eauto 10. }
  repeat split; try done.
  - intros Hlen. unfold error_masks in Hms.
    apply rbind_Ok in Hms as (tp & Hb & Hms).
    apply rbind_Ok in Hms as (tn & _ & Hms).
    apply rbind_Ok in Hms as (fp & _ & Hms).
    apply rbind_Ok in Hms as (fn & _ & Hms).
    injection Hms as <-. cbn [m_true_positive].
    unfold broadcast2 in Hb. rewrite length_map, Hlen, Nat.eqb_refl in Hb.
    injection Hb as <-. rewrite length_zip_with, length_map. lia.
  - intros i Hi.
    destruct (Hat i Hi) as (b1 & b2 & b3 & b4 & H1 & H2 & H3 & H4 & Hh).
    apply add_mask_Ok in Htp as (Etp & _ & Htp).
    apply add_mask_Ok in Htn as (Etn & _ & Htn).
    apply add_mask_Ok in Hfp as (Efp & _ & Hfp).
    apply add_mask_Ok in Hfn as (Efn & _ & Hfn).
    destruct (lookup_lt_is_Some_2 (true_positive df) i) as [tp Ltp];
      [lia |].
    destruct (lookup_lt_is_Some_2 (true_negative df) i) as [tn Ltn];
      [lia |].
    destruct (lookup_lt_is_Some_2 (false_positive df) i) as [fp Lfp];
      [lia |].
    destruct (lookup_lt_is_Some_2 (false_negative df) i) as [fn Lfn];
      [lia |].
    eexists tp, tn, fp, fn, _, _, _, _.
    repeat (split; [by eauto |]).
    destruct b1, b2, b3, b4; try discriminate; lia.
  - by apply count_true_partition.
Qed.

Lemma broadcast2_same_length {A B C} (f : A → B → C) xs ys :
  length xs = length ys → broadcast2 f xs ys = Ok (zip_with f xs ys).
Proof. intros E. unfold broadcast2. by rewrite E, Nat.eqb_refl. Qed.

Lemma add_mask_same_length (column : list Z) (mask : list bool) :
  length column = length mask → ∃ column', add_mask column mask = Ok column'.
Proof. intros E. unfold add_mask. rewrite E, Nat.eqb_refl. eauto. Qed.

Lemma np_dot_returns (types : list (list scalar)) (stimuli : list scalar) :
  (∀ row, row ∈ types → length row = length stimuli) →
  ∃ true_stim, dot types stimuli = Ok true_stim.
Proof.
  induction types as [|row types IH]; intros Hrows; simpl; [eauto |].
  unfold dot_row. rewrite (Hrows row) by left. rewrite Nat.eqb_refl.
  destruct IH as [ts Hts]; [intros r Hr; apply Hrows; by right |].
  rewrite Hts. simpl. eauto.
Qed.

(** On operands of the shapes the driver passes, [evaluate_behavior]
    returns. *)
Lemma evaluate_behavior_returns
    (states : list Z) (thresholds stimuli : list scalar)
    (types : list (list scalar)) (df : behavior_df) :
  length thresholds = length states →
  length types = length states →
  (∀ row, row ∈ types → length row = length stimuli) →
  length (true_positive df) = length states →
  length (true_negative df) = length states →
  length (false_positive df) = length states →
  length (false_negative df) = length states →
  ∃ cb df', evaluate states thresholds stimuli types df = Ok (cb, df') ∧
            length cb = length states.
Proof.
  intros Lth Lty Hrows Ltp Ltn Lfp Lfn.
  destruct (np_dot_returns types stimuli Hrows) as [ts Hts].
  destruct (np_dot_Ok _ _ _ Hts) as [Lts _].
  unfold evaluate_behavior. rewrite Hts. cbn [rbind].
  rewrite broadcast2_same_length by lia. cbn [rbind].
  set (cb := zip_with gt ts thresholds).
  assert (Lcb : length cb = length states)
    by (unfold cb; rewrite length_zip_with; lia).
  unfold error_masks.
  rewrite !broadcast2_same_length by (rewrite ?length_map; lia).
  cbn [rbind m_true_positive m_true_negative m_false_positive
       m_false_negative].
  destruct (add_mask_same_length (true_positive df)
              (zip_with andb (map (λ s, s =? 1)%Z states) cb)) as [tp ->];
    [rewrite length_zip_with, length_map; lia |].
  destruct (add_mask_same_length (true_negative df)
              (zip_with andb (map (λ s, s =? 0)%Z states) (map negb cb)))
    as [tn ->]; [rewrite length_zip_with, !length_map; lia |].
  destruct (add_mask_same_length (false_positive df)
              (zip_with andb (map (λ s, s =? 1)%Z states) (map negb cb)))
    as [fp ->]; [rewrite length_zip_with, !length_map; lia |].
  destruct (add_mask_same_length (false_negative df)
              (zip_with andb (map (λ s, s =? 0)%Z states) cb)) as [fn ->];
    [rewrite length_zip_with, length_map; lia |].
  cbn [rbind]. eauto.
Qed.

(** C3. Every call of [evaluate_behavior] on a binary state vector (with
    thresholds, types and accumulator columns of the population size)
    returns; its four masks cover the population, every individual is in
    exactly one of them, the four counters of every individual together
    grow by exactly 1, and the four counts of the timestep add up to the
    population size. *)
Theorem evaluate_behavior_partition
    (states : list Z) (thresholds stimuli : list scalar)
    (types : list (list scalar)) (df : behavior_df) :
  (∀ s, s ∈ states → s = 0%Z ∨ s = 1%Z) →
  length thresholds = length states →
  length types = length states →
  (∀ row, row ∈ types → length row = length stimuli) →
  length (true_positive df) = length states →
  length (true_negative df) = length states →
  length (false_positive df) = length states →
  length (false_negative df) = length states →
  ∃ cb df' ms,
    evaluate states thresholds stimuli types df = Ok (cb, df') ∧
    error_masks states cb = Ok ms ∧
    length (m_true_positive ms) = length states ∧
    length (m_true_negative ms) = length states ∧
    length (m_false_positive ms) = length states ∧
    length (m_false_negative ms) = length states ∧
    (∀ i, i < length states →
       ∃ b1 b2 b3 b4,
         m_true_positive ms !! i = Some b1 ∧
         m_true_negative ms !! i = Some b2 ∧
         m_false_positive ms !! i = Some b3 ∧
         m_false_negative ms !! i = Some b4 ∧
         one_hot b1 b2 b3 b4 = true) ∧
    (∀ i, i < length states →
       ∃ tp tn fp fn tp' tn' fp' fn',
         true_positive df !! i = Some tp ∧
         true_negative df !! i = Some tn ∧
         false_positive df !! i = Some fp ∧
         false_negative df !! i = Some fn ∧
         true_positive df' !! i = Some tp' ∧
         true_negative df' !! i = Some tn' ∧
         false_positive df' !! i = Some fp' ∧
         false_negative df' !! i = Some fn' ∧
         (tp' + tn' + fp' + fn' = tp + tn + fp + fn + 1)%Z) ∧
    count_true (m_true_positive ms) + count_true (m_true_negative ms)
    + count_true (m_false_positive ms) + count_true (m_false_negative ms)
    = length states.
Proof.
  intros Hbin Lth Lty Hrows Ltp Ltn Lfp Lfn.
  destruct (evaluate_behavior_returns states thresholds stimuli types df)
    as (cb & df' & Hrun & Lcb); try done.
  destruct (evaluate_behavior_partition_returning _ _ _ _ _ _ _ Hbin Hrun)
    as (ms & Hms & L2 & L3 & L4 & Hn & Hone & Hsum & Hcount).
  specialize (Hn (eq_sym Lcb)).
  exists cb, df', ms. rewrite <- Hn.
  repeat split; try done; congruence.
Qed.


(** C4. The vector a returning call of [evaluate_behavior] hands back
    holds, for every individual, whether the inner product of its row of
    [types] with the stimuli exceeds its threshold; any other returning
    call on the same thresholds, stimuli and types hands back the same
    vector, whatever its state vector and accumulator. *)
Theorem evaluate_behavior_correctness
    (states : list Z) (thresholds stimuli : list scalar)
    (types : list (list scalar)) (df : behavior_df)
    (cb : list bool) (df' : behavior_df) :
  evaluate states thresholds stimuli types df = Ok (cb, df') →
  length thresholds = length types →
  length cb = length types ∧
  (∀ i row thr, types !! i = Some row → thresholds !! i = Some thr →
     ∃ x, dot1 row stimuli = Ok x ∧ cb !! i = Some (gt x thr)) ∧
  (∀ states2 df2 cb2 df2',
     evaluate states2 thresholds stimuli types df2 = Ok (cb2, df2') →
     cb2 = cb).
Proof.
  intros H Hlen.
  apply evaluate_behavior_Ok in H as (ts & ms & Hts & Hcb & _).
  destruct (np_dot_Ok _ _ _ Hts) as [Lts Hrows].
  assert (Ecb : cb = zip_with gt ts thresholds).
  { unfold broadcast2 in Hcb. rewrite Lts, Hlen, Nat.eqb_refl in Hcb.
    by injection Hcb. }
  split; [| split].
  - rewrite Ecb, length_zip_with. lia.
  - intros i row thr Hrow Hthr.
    destruct (Hrows i row Hrow) as (x & Hx & Hi). exists x.
    split; [done |]. rewrite Ecb, lookup_zip_with, Hi. simpl.
    by rewrite Hthr.
  - intros states2 df2 cb2 df2' H2.
    apply evaluate_behavior_Ok in H2 as (ts2 & ms2 & Hts2 & Hcb2 & _).
    congruence.
Qed.
End ScalarFacts.

Lemma evaluate_behavior_partition_witness :
  ∃ cb df' ms,
    evaluate_behavior Z 0%Z Z.add Z.mul Z.gtb
      [1;0;1;0]%Z [0;0;5;5]%Z [1;2]%Z [[1;0];[0;-1];[1;1];[2;2]]%Z
      (mkBehavior [0;1;2;3] [0;0;0;0]%Z [0;0;0;0]%Z [0;0;0;0]%Z [0;0;0;0]%Z)
    = Ok (cb, df') ∧
    error_masks [1;0;1;0]%Z cb = Ok ms ∧
    count_true (m_true_positive ms) + count_true (m_true_negative ms)
    + count_true (m_false_positive ms) + count_true (m_false_negative ms)
    = 4.
Proof.
  assert (Hbin : ∀ s : Z, s ∈ [1;0;1;0]%Z → s = 0%Z ∨ s = 1%Z).
  { intros s Hs. repeat (apply elem_of_cons in Hs as [->|Hs]; [lia |]).
    inversion Hs. }
  assert (Hrows : ∀ row : list Z,
            row ∈ [[1;0];[0;-1];[1;1];[2;2]]%Z → length row = length [1;2]%Z).
  { intros row Hr. repeat (apply elem_of_cons in Hr as [->|Hr]; [done |]).
    inversion Hr. }
  destruct (evaluate_behavior_partition Z 0%Z Z.add Z.mul Z.gtb
              [1;0;1;0]%Z [0;0;5;5]%Z [1;2]%Z
              [[1;0];[0;-1];[1;1];[2;2]]%Z
              (mkBehavior [0;1;2;3] [0;0;0;0]%Z [0;0;0;0]%Z [0;0;0;0]%Z
                          [0;0;0;0]%Z)
              Hbin eq_refl eq_refl Hrows eq_refl eq_refl eq_refl eq_refl)
    as (cb & df' & ms & Hrun & Hms & _ & _ & _ & _ & _ & _ & Hcount).
  exists cb, df', ms. done.
Defined.

Lemma evaluate_behavior_correctness_witness :
  [true;false;false;true] !! 2 = Some (3 >? 5)%Z.
Proof.
  destruct (evaluate_behavior_correctness Z 0%Z Z.add Z.mul Z.gtb
              [1;0;1;0]%Z [0;0;5;5]%Z [1;2]%Z
              [[1;0];[0;-1];[1;1];[2;2]]%Z
              (mkBehavior [0;1;2;3] [0;0;0;0]%Z [0;0;0;0]%Z [0;0;0;0]%Z [0;0;0;0]%Z)
              [true;false;false;true]
              (mkBehavior [0;1;2;3] [1;0;0;0]%Z [0;0;0;1]%Z [0;1;0;0]%Z [0;0;1;0]%Z)
              eq_refl eq_refl)
    as (_ & Hrows & _).
  destruct (Hrows 2 [1;1]%Z 5%Z eq_refl eq_refl) as (x & Hx & Hcb).
  vm_compute in Hx. injection Hx as <-. exact Hcb.
Defined.

(** ** Seeding and reproducibility of a replicate *)

Section DriverFacts.
Variable mt19937 : Z → nat → nat.
Variables Samplers Stats Fitness : Type.
Variable empty_stats : Stats.
Variable seed_thresholds : nat → float → float → M (list float).
Variable assign_type : nat → M (list (list float)).
Variable seed_social_network : nat → nat → network_type → M (list (list Z)).
Variable simulate_stim_sampling :
  nat → float → float → list (list float) → list float →
  M (list float * list Z * Samplers * Samplers).
Variable simulate_cascade : list (list Z) → list Z → list float → M (list Z).
Variable get_cascade_stats :
  nat → Samplers → Samplers → list Z → list (list float) → Stats → M Stats.
Variable assess_fitness :
  nat → float → float → Z → list (list Z) → list float →
  list (list float) → M (Fitness * Fitness).

Local Abbreviation sim :=
  (sim_adjusting_network mt19937 Samplers Stats Fitness empty_stats
     seed_thresholds assign_type seed_social_network simulate_stim_sampling
     simulate_cascade get_cascade_stats assess_fitness).
Local Abbreviation seeded_run :=
  (simulate_seeded Samplers Stats Fitness empty_stats
     seed_thresholds assign_type seed_social_network simulate_stim_sampling
     simulate_cascade get_cascade_stats assess_fitness).

(** C8. The seed is [int((replicate + 1 + gamma) * 323)], computed from
    the replicate id and gamma alone; the run starts from the generator
    state that seed determines, whatever state the generator was in when
    the driver was called, so two runs with the same parameters (and the
    same collaborators) yield the same outcome: the same final network,
    the same accumulators, or the same exception. *)
Theorem sim_adjusting_network_reproducible
    (replicate : Z) (n k : nat) (gamma psi p : float) (timesteps : nat)
    (nt : network_type) (g g' : RandomState) :
  derive_seed replicate gamma
  = rbind (float_of_int (replicate + 1))
          (λ r, int_of_float (PrimFloat.mul (PrimFloat.add r gamma)
                                            323%float)) ∧
  sim replicate n k gamma psi p timesteps nt g
  = sim replicate n k gamma psi p timesteps nt g' ∧
  (∀ seed, derive_seed replicate gamma = Ok seed →
     (0 ≤ seed < 2 ^ 32)%Z →
     sim replicate n k gamma psi p timesteps nt g
     = seeded_run n k gamma psi timesteps nt
         (mkRandomState (mt19937 seed) 0)).
Proof.
  split; [reflexivity |].
  unfold sim_adjusting_network, bind, lift, np_random_seed.
  split.
  - destruct (derive_seed replicate gamma) as [seed|e]; reflexivity.
  - intros seed -> [Hlo Hhi].
    apply Z.leb_le in Hlo. apply Z.ltb_lt in Hhi. rewrite Hlo, Hhi.
    reflexivity.
Qed.
End DriverFacts.

Lemma sim_adjusting_network_reproducible_witness :
  sim_adjusting_network (λ seed k, Z.to_nat seed + k) unit unit unit tt
    (λ n _ _, ret (replicate n 0.5%float))
    (λ n, ret (replicate n [1%float; 0%float]))
    (λ n _ _, ret (replicate n (replicate n 0%Z)))
    (λ n _ _ _ _, ret ([1%float; 1%float], replicate n 1%Z, tt, tt))
    (λ _ states _, ret states)
    (λ _ _ _ _ _ _, ret tt)
    (λ _ _ _ _ _ _ _, ret (tt, tt))
    1 3 2 0%float 1%float 0%float 2 random (const_rng 7)
  = simulate_seeded unit unit unit tt
    (λ n _ _, ret (replicate n 0.5%float))
    (λ n, ret (replicate n [1%float; 0%float]))
    (λ n _ _, ret (replicate n (replicate n 0%Z)))
    (λ n _ _ _ _, ret ([1%float; 1%float], replicate n 1%Z, tt, tt))
    (λ _ states _, ret states)
    (λ _ _ _ _ _ _, ret tt)
    (λ _ _ _ _ _ _ _, ret (tt, tt))
    3 2 0%float 1%float 2 random
    (mkRandomState (λ k, Z.to_nat 646 + k) 0).
Proof.
  apply (sim_adjusting_network_reproducible (λ seed k, Z.to_nat seed + k)
           unit unit unit tt _ _ _ _ _ _ _
           1 3 2 0%float 1%float 0%float 2 random
           (const_rng 7) (const_rng 7)).
  - vm_compute. reflexivity.
  - lia.
Defined.

(** C10. The seed derivation is not injective: replicate 1 with gamma 0.0
    and replicate 0 with gamma 1.0 are different parameter pairs with the
    same seed, 646, and so both runs start from the same generator state,
    whatever generator the seed feeds. *)
Theorem derive_seed_not_injective :
  derive_seed 1 0%float = Ok 646%Z ∧
  derive_seed 0 1%float = Ok 646%Z ∧
  (1%Z, 0%float) ≠ (0%Z, 1%float) ∧
  ∀ (mt19937 : Z → nat → nat) (g g' : RandomState),
    bind (lift (derive_seed 1 0%float)) (np_random_seed mt19937) g
    = Ok (tt, mkRandomState (mt19937 646%Z) 0) ∧
    bind (lift (derive_seed 0 1%float)) (np_random_seed mt19937) g'
    = Ok (tt, mkRandomState (mt19937 646%Z) 0).
Proof.
  assert (H1 : derive_seed 1 0%float = Ok 646%Z) by (vm_compute; reflexivity).
  assert (H0 : derive_seed 0 1%float = Ok 646%Z) by (vm_compute; reflexivity).
  split; [done |]. split; [done |]. split.
  - intros [= E _]. 
  - intros mt g g'. unfold bind, lift. rewrite H1, H0. split; reflexivity.
Qed.

(** * Further properties of the rewiring functions *)

Lemma total_ties_alter (f : list Z → list Z) network i row :
  network !! i = Some row →
  total_ties (alter f i network)
  = (total_ties network - row_sum row + row_sum (f row))%Z.
Proof.
  revert i. induction network as [|r network IH]; intros [|i] Hr;
    try discriminate.
  - injection Hr as ->. cbn. lia.
  - cbn in Hr. cbn. specialize (IH i Hr). unfold total_ties in IH.
    rewrite IH. lia.
Qed.

Lemma total_ties_setitem network i j x old :
  entry network i j = Some old →
  total_ties (setitem network i j x) = (total_ties network - old + x)%Z.
Proof.
  intros (row & Hr & Hj)%entry_Some. unfold setitem.
  rewrite (total_ties_alter _ _ _ _ Hr), (row_sum_insert _ _ _ _ Hj). lia.
Qed.

Lemma same_shape_refl network : same_shape network network.
Proof. by split. Qed.

Lemma same_shape_trans n1 n2 n3 :
  same_shape n1 n2 → same_shape n2 n3 → same_shape n1 n3.
Proof.
  intros [L1 R1] [L2 R2]. split; [congruence |].
  intros i. by rewrite R2, R1.
Qed.

Lemma same_shape_setitem network i j x :
  same_shape network (setitem network i j x).
Proof.
  split; [apply length_setitem |]. intros k.
  destruct (decide (i = k)) as [<-|Hik].
  - unfold setitem. rewrite list_lookup_alter_eq.
    destruct (network !! i) as [row|]; simpl; [| done].
    by rewrite length_insert.
  - by rewrite setitem_lookup_ne.
Qed.

Lemma is_binary_setitem network i j x :
  is_binary network → x = 0%Z ∨ x = 1%Z → is_binary (setitem network i j x).
Proof.
  intros Hb Hx i' j' v Hv.
  destruct (decide ((i, j) = (i', j'))) as [E|E].
  - injection E as <- <-.
    destruct (entry network i j) as [old|] eqn:Ho.
    + rewrite (entry_setitem_eq _ _ _ _ _ Ho) in Hv. by injection Hv as <-.
    + apply entry_Some in Hv as (row & Hr & Hj).
      unfold setitem in Hr. rewrite list_lookup_alter_eq in Hr.
      destruct (network !! i) as [r|] eqn:Hn; [| discriminate].
      injection Hr as <-. unfold entry in Ho. rewrite Hn in Ho.
      apply lookup_lt_Some in Hj. rewrite length_insert in Hj.
      apply lookup_ge_None in Ho. lia.
  - rewrite entry_setitem_ne in Hv by done. eauto.
Qed.

(** A returning call of [adjust_tie], with who was involved: the adjuster
    [a] is active and incorrect, the dropped neighbor [b] is active. *)
Lemma adjust_tie_inv network states correct_behavior g network' g' :
  adjust_tie network states correct_behavior g = Ok (network', g') →
  network' = network ∨
  ∃ a b, states !! a = Some 1%Z ∧ states !! b = Some 1%Z ∧
         correct_behavior !! a = Some false ∧
         entry network a b = Some 1%Z ∧
         (network' = setitem network a b 0 ∨
          ∃ f t, entry (setitem network a b 0) f t = Some 0%Z ∧ t ≠ f ∧
                 network' = setitem (setitem network a b 0) f t 1).
Proof.
  unfold adjust_tie.
  destruct (0 <? py_sum (np_where 1 states))%nat;
    [| intros [= <- _]; by left].
  intros (a & g1 & Ha & H)%bind_Ok.
  apply np_random_choice_elem, np_where_spec in Ha.
  apply bind_Ok in H as (c & g2 & Hc & H).
  apply getitem_Ok in Hc as [Hc ->].
  apply bind_Ok in H as (row & g3 & Hrow & H).
  apply getitem_Ok in Hrow as [Hrow ->].
  destruct c; simpl negb in H; cbv iota in H;
    [injection H as <- _; by left |].
  apply bind_Ok in H as (b & g4 & Hb & H).
  apply np_random_choice_elem in Hb.
  apply list_elem_of_filter in Hb as [Hb Hbact].
  apply np_where_spec in Hb. apply np_where_spec in Hbact.
  right. exists a, b. repeat (split; [done |]).
  split; [apply entry_Some; eauto |].
  apply bind_Ok in H as (f & g5 & Hf & H).
  apply bind_Ok in H as (frow & g6 & Hfrow & H).
  apply getitem_Ok in Hfrow as [Hfrow ->].
  match type of H with
  | (if (0 <? length ?l)%nat then _ else _) _ = _ => set (cands := l) in *
  end.
  destruct (0 <? length cands)%nat.
  - apply bind_Ok in H as (t & g7 & Ht & H). injection H as <- _.
    apply np_random_choice_elem in Ht.
    apply list_elem_of_filter in Ht as [Hne Ht].
    apply np_where_spec in Ht.
    right. exists f, t. split; [apply entry_Some; eauto | done].
  - injection H as <- _. by left.
Qed.

(** X1. A call whose guard is passed and whose drawn adjuster behaved
    correctly returns the network as it is, after that one draw. *)
Theorem adjust_tie_correct_adjuster
    (network : list (list Z)) (states : list Z) (correct_behavior : list bool)
    (g g1 : RandomState) (a : nat) (active_row : list Z) :
  (0 < py_sum (np_where 1 states))%nat →
  np_random_choice (np_where 1 states) g = Ok (a, g1) →
  correct_behavior !! a = Some true →
  network !! a = Some active_row →
  adjust_tie network states correct_behavior g
  = Ok (network, mkRandomState (stream g) (S (pos g))).
Proof.
  intros Hsum Ha Hc Hrow.
  pose proof (np_random_choice_Ok _ _ _ _ Ha) as [_ ->].
  unfold adjust_tie. apply Nat.ltb_lt in Hsum. rewrite Hsum.
  unfold bind at 1. rewrite Ha.
  unfold bind at 1. unfold getitem at 1. rewrite Hc.
  unfold bind at 1. unfold getitem at 1. rewrite Hrow.
  reflexivity.
Qed.

Lemma adjust_tie_correct_adjuster_witness :
  adjust_tie [[0;1;0];[1;0;0];[0;0;0]]%Z [1;1;0]%Z [false;true;true]
             (const_rng 1)
  = Ok ([[0;1;0];[1;0;0];[0;0;0]]%Z, mkRandomState (λ _, 1) 1).
Proof.
  apply (adjust_tie_correct_adjuster
           [[0;1;0];[1;0;0];[0;0;0]]%Z [1;1;0]%Z [false;true;true]
           (const_rng 1) (mkRandomState (λ _, 1) 1) 1 [1;0;0]%Z).
  - vm_compute. lia.
  - reflexivity.
  - reflexivity.
  - reflexivity.
Defined.

(** X2. Unless some individual other than individual 0 is active, the
    call returns the network as it is and draws nothing. *)
Theorem adjust_tie_idle
    (network : list (list Z)) (states : list Z) (correct_behavior : list bool)
    (g : RandomState) :
  (∀ i, states !! i = Some 1%Z → i = 0) →
  adjust_tie network states correct_behavior g = Ok (network, g).
Proof.
  intros Hidle. unfold adjust_tie.
  destruct (0 <? py_sum (np_where 1 states))%nat eqn:E; [| reflexivity].
  apply Nat.ltb_lt, guard_passed_iff in E as (i & Hi & Hact).
  by apply Hidle in Hact.
Qed.

Lemma adjust_tie_idle_witness :
  adjust_tie [[0;1;1];[1;0;1];[1;1;0]]%Z [1;0;0]%Z [false;false;false]
             (const_rng 5)
  = Ok ([[0;1;1];[1;0;1];[1;1;0]]%Z, const_rng 5).
Proof.
  apply adjust_tie_idle.
  intros [|[|[|i]]] H; simpl in H; try discriminate; reflexivity.
Defined.

(** X3. A returning call that changed the network removed a tie that an
    active individual who behaved incorrectly had to an active neighbor. *)
Theorem adjust_tie_change_needs_incorrect_active
    (network : list (list Z)) (states : list Z) (correct_behavior : list bool)
    (g : RandomState) (network' : list (list Z)) (g' : RandomState) :
  adjust_tie network states correct_behavior g = Ok (network', g') →
  network' ≠ network →
  ∃ a b, states !! a = Some 1%Z ∧ states !! b = Some 1%Z ∧
         correct_behavior !! a = Some false ∧
         entry network a b = Some 1%Z ∧
         entry network' a b = Some 0%Z.
Proof.
  intros H Hne. apply adjust_tie_inv in H as [->|H]; [done |].
  destruct H as (a & b & Ha & Hb & Hc & Hab & [->|(f & t & Hft & Htf & ->)]).
  - exists a, b. repeat (split; [done |]). by eapply entry_setitem_eq.
  - exists a, b. repeat (split; [done |]).
    destruct (decide ((f, t) = (a, b))) as [E|E].
    + exfalso. apply Hne. injection E as -> ->.
      (* the dropped tie was formed again: the network is as before *)
      unfold setitem. rewrite list_alter_alter_eq.
      apply list_eq. intros i. destruct (decide (a = i)) as [<-|Hi].
      * rewrite list_lookup_alter_eq.
        apply entry_Some in Hab as (row & -> & Hrow). simpl. f_equal.
        rewrite list_insert_insert_eq. by apply list_insert_id.
      * by rewrite list_lookup_alter_ne.
    + rewrite entry_setitem_ne by done. by eapply entry_setitem_eq.
Qed.

Lemma adjust_tie_change_needs_incorrect_active_witness :
  ∃ a b, [1;1;0]%Z !! a = Some 1%Z ∧ [1;1;0]%Z !! b = Some 1%Z ∧
         [false;false;true] !! a = Some false ∧
         entry [[0;1;0];[1;0;0];[0;0;0]]%Z a b = Some 1%Z ∧
         entry [[0;1;0];[0;0;1];[0;0;0]]%Z a b = Some 0%Z.
Proof.
  apply (adjust_tie_change_needs_incorrect_active
           [[0;1;0];[1;0;0];[0;0;0]]%Z [1;1;0]%Z [false;false;true]
           (const_rng 1) _ (mkRandomState (λ _, 1) 4)).
  - vm_compute. reflexivity.
  - discriminate.
Defined.

(** X4. A returning call keeps the dimensions of the matrix and keeps a
    matrix of zeros and ones a matrix of zeros and ones. *)
Theorem adjust_tie_shape_binary
    (network : list (list Z)) (states : list Z) (correct_behavior : list bool)
    (g : RandomState) (network' : list (list Z)) (g' : RandomState) :
  adjust_tie network states correct_behavior g = Ok (network', g') →
  same_shape network network' ∧ (is_binary network → is_binary network').
Proof.
  intros H. apply adjust_tie_adjusted in H.
  destruct H as [|a b Hab|a b f t Hab Hft Hne].
  - split; [apply same_shape_refl | done].
  - split; [apply same_shape_setitem |].
    intros Hb. apply is_binary_setitem; auto.
  - split.
    + eapply same_shape_trans; apply same_shape_setitem.
    + intros Hb. repeat apply is_binary_setitem; auto.
Qed.

Lemma adjust_tie_shape_binary_witness :
  same_shape [[0;1;0];[1;0;0];[0;0;0]]%Z [[0;1;0];[0;0;1];[0;0;0]]%Z.
Proof.
  apply (adjust_tie_shape_binary
           [[0;1;0];[1;0;0];[0;0;0]]%Z [1;1;0]%Z [false;false;true]
           (const_rng 1) _ (mkRandomState (λ _, 1) 4)).
  vm_compute. reflexivity.
Defined.

(** X5. A returning call never raises the number of ties of the network:
    it stays (nothing done, or a tie moved) or drops by one (a tie removed
    and no candidate for the formation). *)
Theorem adjust_tie_total_ties
    (network : list (list Z)) (states : list Z) (correct_behavior : list bool)
    (g : RandomState) (network' : list (list Z)) (g' : RandomState) :
  adjust_tie network states correct_behavior g = Ok (network', g') →
  total_ties network' = total_ties network ∨
  total_ties network' = (total_ties network - 1)%Z.
Proof.
  intros H. apply adjust_tie_adjusted in H.
  destruct H as [|a b Hab|a b f t Hab Hft Hne].
  - by left.
  - right. rewrite (total_ties_setitem _ _ _ _ _ Hab). lia.
  - left. rewrite (total_ties_setitem _ _ _ _ _ Hft).
    rewrite (total_ties_setitem _ _ _ _ _ Hab). lia.
Qed.

Lemma adjust_tie_total_ties_witness :
  total_ties [[0;0];[1;0]]%Z = total_ties [[0;1];[1;0]]%Z ∨
  total_ties [[0;0];[1;0]]%Z = (total_ties [[0;1];[1;0]]%Z - 1)%Z.
Proof.
  apply (adjust_tie_total_ties [[0;1];[1;0]]%Z [1;1]%Z [false;false]
           (mkRandomState (λ k, Nat.div k 2) 0) _
           (mkRandomState (λ k, Nat.div k 2) 3)).
  vm_compute. reflexivity.
Defined.

Lemma py_sum_pos_nonempty (l : list nat) : (0 < py_sum l)%nat → l ≠ [].
Proof. destruct l; simpl; [lia | done]. Qed.

(** X6. The call returns whenever every active individual has an entry in
    the correctness vector and a row in the matrix and every active
    individual who behaved incorrectly has an active neighbor. *)
Theorem adjust_tie_returns
    (network : list (list Z)) (states : list Z) (correct_behavior : list bool)
    (g : RandomState) :
  (∀ a, states !! a = Some 1%Z →
     ∃ c row, correct_behavior !! a = Some c ∧ network !! a = Some row ∧
              (c = false → perceived_incorrect states row ≠ [])) →
  ∃ network' g', adjust_tie network states correct_behavior g
                 = Ok (network', g').
Proof.
  intros Hok. unfold adjust_tie.
  destruct (0 <? py_sum (np_where 1 states))%nat eqn:E;
    [| unfold ret; eauto].
  apply Nat.ltb_lt, py_sum_pos_nonempty in E.
  destruct (np_random_choice_nonempty _ g E) as [a Ha].
  pose proof (np_random_choice_elem _ _ _ _ Ha) as Hact.
  apply np_where_spec, Hok in Hact as (c & row & Hc & Hrow & Hnb).
  unfold bind at 1. rewrite Ha.
  unfold bind at 1. unfold getitem at 1. rewrite Hc.
  unfold bind at 1. unfold getitem at 1. rewrite Hrow.
  destruct c; cbn [negb]; [unfold ret; eauto |]. cbv zeta.
  fold (perceived_incorrect states row).
  set (g1 := mkRandomState (stream g) (S (pos g))).
  destruct (np_random_choice_nonempty _ g1 (Hnb eq_refl)) as [b Hb].
  unfold bind at 1. rewrite Hb.
  set (net1 := setitem network a b 0).
  set (g2 := mkRandomState (stream g1) (S (pos g1))).
  assert (Hseq : seq 0 (length net1) ≠ []).
  { unfold net1. rewrite length_setitem.
    apply lookup_lt_Some in Hrow. destruct network; simpl in *; [lia | done]. }
  destruct (np_random_choice_nonempty _ g2 Hseq) as [f Hf].
  unfold bind at 1. rewrite Hf.
  pose proof (np_random_choice_elem _ _ _ _ Hf) as Hfin.
  apply elem_of_seq in Hfin as [_ Hfin]. simpl in Hfin.
  destruct (lookup_lt_is_Some_2 net1 f Hfin) as [frow Hfrow].
  unfold bind at 1. unfold getitem at 1. rewrite Hfrow.
  fold (potential_ties frow f).
  destruct (potential_ties frow f) as [|t cands] eqn:Ec;
    cbn [length Nat.ltb Nat.leb]; [unfold ret; eauto |].
  set (g3 := mkRandomState (stream g2) (S (pos g2))).
  destruct (np_random_choice_nonempty (t :: cands) g3) as [t' Ht']; [done |].
  unfold bind. rewrite Ht'. unfold ret. eauto.
Qed.

Lemma adjust_tie_returns_witness :
  ∃ network' g',
    adjust_tie [[0;1;0];[1;0;0];[0;0;0]]%Z [1;1;0]%Z [false;false;true]
               (const_rng 3)
    = Ok (network', g').
Proof.
  apply adjust_tie_returns.
  intros [|[|[|a]]] H; simpl in H; try discriminate.
  - exists false, [0;1;0]%Z. repeat split. intros _. vm_compute. discriminate.
  - exists false, [1;0;0]%Z. repeat split. intros _. vm_compute. discriminate.
Defined.

(** ** The unconditional variant *)

Lemma break_tie_inv network states correct_behavior g network' g' :
  break_tie network states correct_behavior g = Ok (network', g') →
  network' = network ∨
  ∃ a b, states !! a = Some 1%Z ∧ states !! b = Some 1%Z ∧
         correct_behavior !! a = Some false ∧
         entry network a b = Some 1%Z ∧
         network' = setitem network a b 0.
Proof.
  unfold break_tie.
  destruct (0 <? py_sum (np_where 1 states))%nat;
    [| intros [= <- _]; by left].
  intros (a & g1 & Ha & H)%bind_Ok.
  apply np_random_choice_elem, np_where_spec in Ha.
  apply bind_Ok in H as (c & g2 & Hc & H).
  apply getitem_Ok in Hc as [Hc ->].
  destruct c; simpl negb in H; cbv iota in H;
    [injection H as <- _; by left |].
  apply bind_Ok in H as (row & g3 & Hrow & H).
  apply getitem_Ok in Hrow as [Hrow ->].
  apply bind_Ok in H as (b & g4 & Hb & H).
  apply np_random_choice_elem in Hb.
  apply list_elem_of_filter in Hb as [Hb Hbact].
  apply np_where_spec in Hb. apply np_where_spec in Hbact.
  injection H as <- _.
  right. exists a, b. repeat (split; [done |]).
  split; [apply entry_Some; eauto | done].
Qed.

(** X7. A returning call of [break_tie] leaves the network as it is or
    sets to 0 one tie that an active individual who behaved incorrectly had
    to an active neighbor; no out-degree grows and none drops by more than
    one. *)
Theorem break_tie_outcome
    (network : list (list Z)) (states : list Z) (correct_behavior : list bool)
    (g : RandomState) (network' : list (list Z)) (g' : RandomState) :
  break_tie network states correct_behavior g = Ok (network', g') →
  (network' = network ∨
   ∃ a b, states !! a = Some 1%Z ∧ states !! b = Some 1%Z ∧
          correct_behavior !! a = Some false ∧
          entry network a b = Some 1%Z ∧
          network' = setitem network a b 0) ∧
  (∀ i, (-1 ≤ out_degree network' i - out_degree network i ≤ 0)%Z).
Proof.
  intros H. apply break_tie_inv in H. split; [done |].
  intros i. destruct H as [->|(a & b & _ & _ & _ & Hab & ->)]; [lia |].
  rewrite (out_degree_setitem _ _ _ _ _ _ Hab). case_decide; lia.
Qed.

Lemma break_tie_outcome_witness :
  (-1 ≤ out_degree [[0;1;0];[0;0;0];[0;0;0]] 1
        - out_degree [[0;1;0];[1;0;0];[0;0;0]] 1 ≤ 0)%Z.
Proof.
  apply (break_tie_outcome
           [[0;1;0];[1;0;0];[0;0;0]]%Z [1;1;0]%Z [false;false;true]
           (const_rng 1) _ (mkRandomState (λ _, 1) 2)).
  vm_compute. reflexivity.
Defined.

(** X8. [adjust_tie] is [break_tie] followed by at most one formation:
    when both return on the same arguments and generator, the network of
    [adjust_tie] is that of [break_tie], or that network with one tie, from
    an individual to another to whom it had none, set to 1. *)
Theorem adjust_tie_after_break_tie
    (network : list (list Z)) (states : list Z) (correct_behavior : list bool)
    (g : RandomState) (network1 network2 : list (list Z))
    (g1 g2 : RandomState) :
  break_tie network states correct_behavior g = Ok (network1, g1) →
  adjust_tie network states correct_behavior g = Ok (network2, g2) →
  network2 = network1 ∨
  ∃ f t, entry network1 f t = Some 0%Z ∧ t ≠ f ∧
         network2 = setitem network1 f t 1.
Proof.
  unfold break_tie, adjust_tie.
  destruct (0 <? py_sum (np_where 1 states))%nat;
    [| intros [= <- _] [= <- _]; by left].
  intros (a & ga & Ha & Hb)%bind_Ok (a' & ga' & Ha' & H)%bind_Ok.
  rewrite Ha in Ha'. injection Ha' as <- <-.
  apply bind_Ok in Hb as (c & gc & Hc & Hb).
  apply bind_Ok in H as (c' & gc' & Hc' & H).
  rewrite Hc in Hc'. injection Hc' as <- <-.
  apply bind_Ok in H as (row & gr & Hrow & H).
  destruct c; simpl negb in *; cbv iota in *.
  { injection Hb as <- _. injection H as <- _. by left. }
  apply bind_Ok in Hb as (row' & gr' & Hrow' & Hb).
  rewrite Hrow in Hrow'. injection Hrow' as <- <-.
  apply bind_Ok in Hb as (b & gb & Hchoice & Hb). injection Hb as <- _.
  apply bind_Ok in H as (b' & gb' & Hchoice' & H).
  cbv zeta in Hchoice'. rewrite Hchoice in Hchoice'.
  injection Hchoice' as <- <-.
  apply bind_Ok in H as (f & gf & Hf & H).
  apply bind_Ok in H as (frow & gfr & Hfrow & H).
  apply getitem_Ok in Hfrow as [Hfrow ->].
  match type of H with
  | (if (0 <? length ?l)%nat then _ else _) _ = _ => set (cands := l) in *
  end.
  destruct (0 <? length cands)%nat.
  - apply bind_Ok in H as (t & gt & Ht & H). injection H as <- _.
    apply np_random_choice_elem in Ht.
    apply list_elem_of_filter in Ht as [Hne Ht].
    apply np_where_spec in Ht.
    right. exists f, t. split; [apply entry_Some; eauto | done].
  - injection H as <- _. by left.
Qed.

Lemma adjust_tie_after_break_tie_witness :
  [[0;1;0];[0;0;1];[0;0;0]]%Z = [[0;1;0];[0;0;0];[0;0;0]]%Z ∨
  ∃ f t, entry [[0;1;0];[0;0;0];[0;0;0]]%Z f t = Some 0%Z ∧ t ≠ f ∧
         [[0;1;0];[0;0;1];[0;0;0]]%Z
         = setitem [[0;1;0];[0;0;0];[0;0;0]]%Z f t 1.
Proof.
  apply (adjust_tie_after_break_tie
           [[0;1;0];[1;0;0];[0;0;0]]%Z [1;1;0]%Z [false;false;true]
           (const_rng 1) _ _
           (mkRandomState (λ _, 1) 2) (mkRandomState (λ _, 1) 4)).
  - vm_compute. reflexivity.
  - vm_compute. reflexivity.
Defined.

(** X9. [break_tie] has the unguarded choice of [adjust_tie]: when the
    guard is passed and the drawn breaker behaved incorrectly and has no
    active neighbor, the call raises [ValueError]. *)
Theorem break_tie_empty_choice
    (network : list (list Z)) (states : list Z) (correct_behavior : list bool)
    (g g1 : RandomState) (a : nat) (breaker_row : list Z) :
  (0 < py_sum (np_where 1 states))%nat →
  np_random_choice (np_where 1 states) g = Ok (a, g1) →
  correct_behavior !! a = Some false →
  network !! a = Some breaker_row →
  perceived_incorrect states breaker_row = [] →
  break_tie network states correct_behavior g = Raise ValueError.
Proof.
  intros Hsum Ha Hc Hrow Hnil.
  unfold break_tie. apply Nat.ltb_lt in Hsum. rewrite Hsum.
  unfold bind at 1. rewrite Ha.
  unfold bind at 1. unfold getitem at 1. rewrite Hc.
  cbn [negb].
  unfold bind at 1. unfold getitem at 1. rewrite Hrow.
  cbv zeta. unfold bind at 1.
  fold (perceived_incorrect states breaker_row).
  rewrite Hnil. reflexivity.
Qed.

Lemma break_tie_empty_choice_witness :
  break_tie [[0;0;1];[0;0;1];[0;0;0]]%Z [0;1;0]%Z [true;false;true]
            (const_rng 4)
  = Raise ValueError.
Proof.
  apply (break_tie_empty_choice _ _ _ (const_rng 4)
           (mkRandomState (λ _, 4) 1) 1 [0;0;1]%Z).
  - vm_compute. lia.
  - reflexivity.
  - reflexivity.
  - reflexivity.
  - reflexivity.
Defined.

Section MakeTieFacts.
Variable choose_form_connection : float → M bool.

Local Abbreviation make := (make_tie choose_form_connection).

Lemma make_tie_inv network connect_prob g network' g' :
  make network connect_prob g = Ok (network', g') →
  network' = network ∨
  ∃ f t, entry network f t = Some 0%Z ∧ t ≠ f ∧
         network' = setitem network f t 1.
Proof.
  unfold make_tie.
  intros (f & g1 & Hf & H)%bind_Ok.
  apply bind_Ok in H as (c & g2 & Hc & H).
  apply bind_Ok in H as (frow & g3 & Hfrow & H).
  apply getitem_Ok in Hfrow as [Hfrow ->].
  match type of H with
  | (if _ && (0 <? length ?l)%nat then _ else _) _ = _ =>
      set (cands := l) in *
  end.
  destruct (c && (0 <? length cands)%nat).
  - apply bind_Ok in H as (t & g4 & Ht & H). injection H as <- _.
    apply np_random_choice_elem in Ht.
    apply list_elem_of_filter in Ht as [Hne Ht].
    apply np_where_spec in Ht.
    right. exists f, t. split; [apply entry_Some; eauto | done].
  - injection H as <- _. by left.
Qed.

(** X10. A returning call of [make_tie] leaves the network as it is or
    sets to 1 one entry that was 0 and is off the diagonal: it creates no
    self-loop, removes no tie, and raises one out-degree by one at most. *)
Theorem make_tie_outcome
    (network : list (list Z)) (connect_prob : float)
    (g : RandomState) (network' : list (list Z)) (g' : RandomState) :
  make network connect_prob g = Ok (network', g') →
  (network' = network ∨
   ∃ f t, entry network f t = Some 0%Z ∧ t ≠ f ∧
          network' = setitem network f t 1) ∧
  (no_self_loops network → no_self_loops network') ∧
  (∀ i j, entry network i j = Some 1%Z → entry network' i j = Some 1%Z) ∧
  (∀ i, (0 ≤ out_degree network' i - out_degree network i ≤ 1)%Z).
Proof.
  intros H. apply make_tie_inv in H. split; [done |].
  destruct H as [->|(f & t & Hft & Hne & ->)].
  - repeat split; try done; lia.
  - split; [| split].
    + intros Hd. apply no_self_loops_setitem; [done | by intros ->].
    + intros i j Hij. rewrite entry_setitem_ne; [done |].
      intros [= -> ->]. congruence.
    + intros i. rewrite (out_degree_setitem _ _ _ _ _ _ Hft).
      case_decide; lia.
Qed.

(** X11. On a network in which every individual is tied to every other
    (no row holds a 0 off the diagonal) a returning call of [make_tie]
    changes nothing, whatever the flag drawn. *)
Theorem make_tie_saturated
    (network : list (list Z)) (connect_prob : float)
    (g : RandomState) (network' : list (list Z)) (g' : RandomState) :
  (∀ f row, network !! f = Some row → potential_ties row f = []) →
  make network connect_prob g = Ok (network', g') →
  network' = network.
Proof.
  intros Hfull H. apply make_tie_inv in H as [->|(f & t & Hft & Hne & ->)];
    [done |].
  apply entry_Some in Hft as (row & Hrow & Ht).
  assert (Hin : t ∈ potential_ties row f).
  { unfold potential_ties. apply list_elem_of_filter. split; [done |].
    by apply np_where_spec. }
  rewrite (Hfull _ _ Hrow) in Hin. inversion Hin.
Qed.
End MakeTieFacts.

Lemma make_tie_outcome_witness :
  no_self_loops [[0;1;0];[1;0;1];[0;0;0]]%Z.
Proof.
  refine (proj1 (proj2 (make_tie_outcome (λ _, ret true)
            [[0;1;0];[1;0;0];[0;0;0]]%Z 1%float
            (const_rng 1) _ (mkRandomState (λ _, 1) 2) _)) _).
  - vm_compute. reflexivity.
  - intros [|[|[|i]]] row H; simpl in H; try discriminate;
      injection H as <-; reflexivity.
Defined.

Lemma make_tie_saturated_witness :
  [[0;1;1];[1;0;1];[1;1;0]]%Z = [[0;1;1];[1;0;1];[1;1;0]]%Z.
Proof.
  apply (make_tie_saturated (λ _, ret true)
           [[0;1;1];[1;0;1];[1;1;0]]%Z 1%float
           (const_rng 2) _ (mkRandomState (λ _, 2) 1)).
  - intros [|[|[|f]]] row H; simpl in H; try discriminate;
      injection H as <-; reflexivity.
  - vm_compute. reflexivity.
Defined.

(** * Further properties of the behavior evaluator *)

Lemma error_masks_lookup (states : list Z) (cb : list bool) ms i s c :
  error_masks states cb = Ok ms →
  length states = length cb →
  states !! i = Some s → cb !! i = Some c →
  m_true_positive ms !! i = Some ((s =? 1)%Z && c) ∧
  m_true_negative ms !! i = Some ((s =? 0)%Z && negb c) ∧
  m_false_positive ms !! i = Some ((s =? 1)%Z && negb c) ∧
  m_false_negative ms !! i = Some ((s =? 0)%Z && c).
Proof.
  intros Hms Hlen Hs Hc. unfold error_masks in Hms.
  rewrite !broadcast2_same_length in Hms by (rewrite ?length_map; lia).
  cbn [rbind] in Hms. injection Hms as <-.
  cbn [m_true_positive m_true_negative m_false_positive m_false_negative].
  rewrite !lookup_zip_with, !list_lookup_fmap, Hs, Hc. done.
Qed.

Section EvaluatorFacts.
Variable scalar : Type.
Variable zero : scalar.
Variable add mul : scalar → scalar → scalar.
Variable gt : scalar → scalar → bool.

Local Abbreviation evaluate' := (evaluate_behavior scalar zero add mul gt).

(** What a returning call does to the four counters of individual [i]
    whose state is [s] and whose ground truth is [c]. *)
Lemma evaluate_behavior_counters
    (states : list Z) (thresholds stimuli : list scalar)
    (types : list (list scalar)) (df : behavior_df)
    (cb : list bool) (df' : behavior_df) (i : nat) (s : Z) (c : bool) :
  evaluate' states thresholds stimuli types df = Ok (cb, df') →
  length states = length cb →
  states !! i = Some s → cb !! i = Some c →
  ∃ tp tn fp fn,
    true_positive df !! i = Some tp ∧ true_negative df !! i = Some tn ∧
    false_positive df !! i = Some fp ∧ false_negative df !! i = Some fn ∧
    true_positive df' !! i
    = Some (if (s =? 1)%Z && c then tp + 1 else tp)%Z ∧
    true_negative df' !! i
    = Some (if (s =? 0)%Z && negb c then tn + 1 else tn)%Z ∧
    false_positive df' !! i
    = Some (if (s =? 1)%Z && negb c then fp + 1 else fp)%Z ∧
    false_negative df' !! i
    = Some (if (s =? 0)%Z && c then fn + 1 else fn)%Z.
Proof.
  intros H Hlen Hs Hc.
  apply evaluate_behavior_Ok in H
    as (ts & ms & _ & _ & Hms & Htp & Htn & Hfp & Hfn).
  destruct (error_masks_lookup _ _ _ _ _ _ Hms Hlen Hs Hc)
    as (M1 & M2 & M3 & M4).
  apply add_mask_Ok in Htp as (Etp & _ & Htp).
  apply add_mask_Ok in Htn as (Etn & _ & Htn).
  apply add_mask_Ok in Hfp as (Efp & _ & Hfp).
  apply add_mask_Ok in Hfn as (Efn & _ & Hfn).
  destruct (lookup_lt_is_Some_2 (true_positive df) i) as [tp Ltp];
    [rewrite Etp; by eapply lookup_lt_Some |].
  destruct (lookup_lt_is_Some_2 (true_negative df) i) as [tn Ltn];
    [rewrite Etn; by eapply lookup_lt_Some |].
  destruct (lookup_lt_is_Some_2 (false_positive df) i) as [fp Lfp];
    [rewrite Efp; by eapply lookup_lt_Some |].
  destruct (lookup_lt_is_Some_2 (false_negative df) i) as [fn Lfn];
    [rewrite Efn; by eapply lookup_lt_Some |].
  exists tp, tn, fp, fn. repeat (split; [done |]).
  rewrite (Htp _ _ _ Ltp M1), (Htn _ _ _ Ltn M2), (Hfp _ _ _ Lfp M3),
    (Hfn _ _ _ Lfn M4). done.
Qed.

(** X12. An individual whose state is neither 0 nor 1 is counted in no
    category: a returning call leaves its four counters as they were. *)
Theorem evaluate_behavior_other_state
    (states : list Z) (thresholds stimuli : list scalar)
    (types : list (list scalar)) (df : behavior_df)
    (cb : list bool) (df' : behavior_df) (i : nat) (s : Z) :
  evaluate' states thresholds stimuli types df = Ok (cb, df') →
  length states = length cb →
  states !! i = Some s → s ≠ 0%Z → s ≠ 1%Z →
  true_positive df' !! i = true_positive df !! i ∧
  true_negative df' !! i = true_negative df !! i ∧
  false_positive df' !! i = false_positive df !! i ∧
  false_negative df' !! i = false_negative df !! i.
Proof.
  intros H Hlen Hs H0 H1.
  destruct (lookup_lt_is_Some_2 cb i) as [c Hc];
    [rewrite <- Hlen; by eapply lookup_lt_Some |].
  destruct (evaluate_behavior_counters _ _ _ _ _ _ _ _ _ _ H Hlen Hs Hc)
    as (tp & tn & fp & fn & -> & -> & -> & -> & -> & -> & -> & ->).
  apply Z.eqb_neq in H0, H1. rewrite H0, H1. done.
Qed.

(** X13. On a binary state vector the counters keep the two margins: for
    every individual, true positives plus false negatives grow by one
    exactly when its ground truth is positive, and true positives plus
    false positives grow by its state. *)
Theorem evaluate_behavior_margins
    (states : list Z) (thresholds stimuli : list scalar)
    (types : list (list scalar)) (df : behavior_df)
    (cb : list bool) (df' : behavior_df) (i : nat) (s : Z) (c : bool) :
  evaluate' states thresholds stimuli types df = Ok (cb, df') →
  length states = length cb →
  states !! i = Some s → cb !! i = Some c →
  s = 0%Z ∨ s = 1%Z →
  ∃ tp tn fp fn tp' tn' fp' fn',
    true_positive df !! i = Some tp ∧ true_negative df !! i = Some tn ∧
    false_positive df !! i = Some fp ∧ false_negative df !! i = Some fn ∧
    true_positive df' !! i = Some tp' ∧ true_negative df' !! i = Some tn' ∧
    false_positive df' !! i = Some fp' ∧
    false_negative df' !! i = Some fn' ∧
    (tp' + fn' = tp + fn + (if c then 1 else 0))%Z ∧
    (tp' + fp' = tp + fp + s)%Z.
Proof.
  intros H Hlen Hs Hc Hbin.
  destruct (evaluate_behavior_counters _ _ _ _ _ _ _ _ _ _ H Hlen Hs Hc)
    as (tp & tn & fp & fn & Ltp & Ltn & Lfp & Lfn & Ltp' & Ltn' & Lfp' & Lfn').
  eexists tp, tn, fp, fn, _, _, _, _.
  repeat (split; [eassumption |]).
  destruct Hbin as [-> | ->], c; simpl; lia.
Qed.

(** X14. In any returning call every counter stays or grows by one, the
    columns keep their length and the column of individuals is untouched. *)
Theorem evaluate_behavior_monotone
    (states : list Z) (thresholds stimuli : list scalar)
    (types : list (list scalar)) (df : behavior_df)
    (cb : list bool) (df' : behavior_df) :
  evaluate' states thresholds stimuli types df = Ok (cb, df') →
  individual df' = individual df ∧
  length (true_positive df') = length (true_positive df) ∧
  length (true_negative df') = length (true_negative df) ∧
  length (false_positive df') = length (false_positive df) ∧
  length (false_negative df') = length (false_negative df) ∧
  ∀ i x x',
    (true_positive df !! i = Some x ∧ true_positive df' !! i = Some x') ∨
    (true_negative df !! i = Some x ∧ true_negative df' !! i = Some x') ∨
    (false_positive df !! i = Some x ∧ false_positive df' !! i = Some x') ∨
    (false_negative df !! i = Some x ∧ false_negative df' !! i = Some x') →
    (x ≤ x' ≤ x + 1)%Z.
Proof.
  intros H.
  assert (Hind : individual df' = individual df).
  { unfold evaluate_behavior in H.
    repeat (apply rbind_Ok in H as (? & _ & H)). by injection H as _ <-. }
  apply evaluate_behavior_Ok in H
    as (ts & ms & _ & _ & _ & Htp & Htn & Hfp & Hfn).
  apply add_mask_Ok in Htp as (Etp & Etp' & Htp).
  apply add_mask_Ok in Htn as (Etn & Etn' & Htn).
  apply add_mask_Ok in Hfp as (Efp & Efp' & Hfp).
  apply add_mask_Ok in Hfn as (Efn & Efn' & Hfn).
  repeat (split; [congruence |]).
  assert (Hstep : ∀ (col col' : list Z) (mask : list bool) i x x',
            length col = length mask →
            (∀ (i : nat) (c : Z) (b : bool), col !! i = Some c →
               mask !! i = Some b →
               col' !! i = Some (if b then c + 1 else c)%Z) →
            col !! i = Some x → col' !! i = Some x' → (x ≤ x' ≤ x + 1)%Z).
  { intros col col' mask i x x' E Hc Hx Hx'.
    destruct (lookup_lt_is_Some_2 mask i) as [b Hb];
      [rewrite <- E; by eapply lookup_lt_Some |].
    rewrite (Hc _ _ _ Hx Hb) in Hx'. injection Hx' as <-.
    destruct b; lia. }
  intros i x x' [[H1 H2]|[[H1 H2]|[[H1 H2]|[H1 H2]]]]; eauto.
Qed.

(** X15. A row of [types] whose length is not that of the stimuli makes
    the call raise [ValueError] (from [np.dot]), whatever the rest. *)
Theorem evaluate_behavior_shape_error
    (states : list Z) (thresholds stimuli : list scalar)
    (types : list (list scalar)) (df : behavior_df) (row : list scalar) :
  row ∈ types → length row ≠ length stimuli →
  evaluate' states thresholds stimuli types df = Raise ValueError.
Proof.
  intros Hin Hlen.
  assert (Hdot : np_dot scalar zero add mul types stimuli = Raise ValueError).
  { induction types as [|r types IH]; [inversion Hin |]. simpl.
    unfold dot_row at 1.
    destruct (Nat.eqb_spec (length r) (length stimuli)) as [E|E];
      [| reflexivity].
    apply elem_of_cons in Hin as [->|Hin]; [done |].
    cbn [rbind]. by rewrite (IH Hin). }
  unfold evaluate_behavior. by rewrite Hdot.
Qed.
End EvaluatorFacts.

Lemma evaluate_behavior_other_state_witness :
  [1;0]%Z !! 1 = [0;0]%Z !! 1.
Proof.
  refine (proj1 (evaluate_behavior_other_state Z 0%Z Z.add Z.mul Z.gtb
            [1;2]%Z [0;0]%Z [1]%Z [[1];[1]]%Z
            (mkBehavior [0;1] [0;0]%Z [0;0]%Z [0;0]%Z [0;0]%Z)
            [true;true]
            (mkBehavior [0;1] [1;0]%Z [0;0]%Z [0;0]%Z [0;0]%Z)
            1 2%Z eq_refl eq_refl eq_refl _ _)); lia.
Defined.

Lemma evaluate_behavior_margins_witness :
  ∃ tp tn fp fn tp' tn' fp' fn' : Z,
    [0;3]%Z !! 1 = Some tp ∧ [0;0]%Z !! 1 = Some tn ∧
    [0;0]%Z !! 1 = Some fp ∧ [0;0]%Z !! 1 = Some fn ∧
    [1;3]%Z !! 1 = Some tp' ∧ [0;0]%Z !! 1 = Some tn' ∧
    [0;0]%Z !! 1 = Some fp' ∧ [0;1]%Z !! 1 = Some fn' ∧
    (tp' + fn' = tp + fn + 1)%Z ∧ (tp' + fp' = tp + fp + 0)%Z.
Proof.
  apply (evaluate_behavior_margins Z 0%Z Z.add Z.mul Z.gtb
           [1;0]%Z [0;0]%Z [1]%Z [[1];[1]]%Z
           (mkBehavior [0;1] [0;3]%Z [0;0]%Z [0;0]%Z [0;0]%Z)
           [true;true]
           (mkBehavior [0;1] [1;3]%Z [0;1]%Z [0;0]%Z [0;0]%Z)
           1 0%Z true eq_refl eq_refl eq_refl eq_refl).
  by left.
Defined.

Lemma evaluate_behavior_monotone_witness :
  individual (mkBehavior [0;1] [1;3]%Z [0;1]%Z [0;0]%Z [0;0]%Z) = [0;1].
Proof.
  apply (evaluate_behavior_monotone Z 0%Z Z.add Z.mul Z.gtb
           [1;0]%Z [0;0]%Z [1]%Z [[1];[1]]%Z
           (mkBehavior [0;1] [0;3]%Z [0;0]%Z [0;0]%Z [0;0]%Z)
           [true;true]
           (mkBehavior [0;1] [1;3]%Z [0;1]%Z [0;0]%Z [0;0]%Z)
           eq_refl).
Defined.

Lemma evaluate_behavior_shape_error_witness :
  evaluate_behavior Z 0%Z Z.add Z.mul Z.gtb
    [1;0]%Z [0;0]%Z [1;2]%Z [[1;1];[1]]%Z
    (mkBehavior [0;1] [0;0]%Z [0;0]%Z [0;0]%Z [0;0]%Z)
  = Raise ValueError.
Proof.
  apply (evaluate_behavior_shape_error Z 0%Z Z.add Z.mul Z.gtb
           _ _ _ _ _ [1]%Z).
  - apply elem_of_cons. right. by left.
  - discriminate.
Defined.

(** * Properties of a whole replicate *)

Lemma adjusted_times_snoc k n1 n2 n3 :
  adjusted_times k n1 n2 → adjusted n2 n3 → adjusted_times (S k) n1 n3.
Proof.
  induction 1 as [n|k n n' n'' Hstep Hrest IH]; intros Hlast.
  - eapply adjusted_times_S; [done | constructor].
  - eapply adjusted_times_S; [done | by apply IH].
Qed.

(** What one returning call of [adjust_tie] keeps. *)
Lemma adjusted_keeps network network' :
  adjusted network network' →
  same_shape network network' ∧
  (no_self_loops network → no_self_loops network') ∧
  (is_binary network → is_binary network') ∧
  (total_ties network - 1 ≤ total_ties network' ≤ total_ties network)%Z ∧
  (∀ i, (-1 ≤ out_degree network' i - out_degree network i ≤ 1)%Z).
Proof.
  intros [|a b Hab|a b f t Hab Hft Hne].
  - repeat split; try done; lia.
  - split; [apply same_shape_setitem |]. split; [| split; [| split]].
    + intros Hd. by apply no_self_loops_setitem.
    + intros Hb. apply is_binary_setitem; auto.
    + rewrite (total_ties_setitem _ _ _ _ _ Hab). lia.
    + intros i. rewrite (out_degree_setitem _ _ _ _ _ _ Hab).
      case_decide; lia.
  - split; [eapply same_shape_trans; apply same_shape_setitem |].
    split; [| split; [| split]].
    + intros Hd. apply no_self_loops_setitem; [| by intros ->].
      by apply no_self_loops_setitem.
    + intros Hb. repeat apply is_binary_setitem; auto.
    + rewrite (total_ties_setitem _ _ _ _ _ Hft).
      rewrite (total_ties_setitem _ _ _ _ _ Hab). lia.
    + intros i. rewrite (out_degree_setitem _ _ _ _ _ _ Hft).
      rewrite (out_degree_setitem _ _ _ _ _ _ Hab).
      repeat case_decide; lia.
Qed.

Lemma adjusted_times_keeps k network network' :
  adjusted_times k network network' →
  same_shape network network' ∧
  (no_self_loops network → no_self_loops network') ∧
  (is_binary network → is_binary network') ∧
  (total_ties network - Z.of_nat k ≤ total_ties network'
   ≤ total_ties network)%Z ∧
  (∀ i, (- Z.of_nat k ≤ out_degree network' i - out_degree network i
         ≤ Z.of_nat k)%Z).
Proof.
  induction 1 as [n|k n n' n'' Hstep Hrest IH].
  - repeat split; try done; lia.
  - destruct (adjusted_keeps _ _ Hstep) as (S1 & D1 & B1 & T1 & O1).
    destruct IH as (S2 & D2 & B2 & T2 & O2).
    split; [by eapply same_shape_trans |].
    split; [auto |]. split; [auto |]. split; [lia |].
    intros i. specialize (O1 i). specialize (O2 i). lia.
Qed.

Lemma lift_Ok {A} (r : result A) g a g' :
  lift r g = Ok (a, g') → r = Ok a ∧ g' = g.
Proof. unfold lift. destruct r; [| discriminate]. by intros [= <- <-]. Qed.

Lemma counted_zeros n :
  counted 0 n (mkBehavior (seq 0 n) (replicate n 0%Z) (replicate n 0%Z)
                          (replicate n 0%Z) (replicate n 0%Z)).
Proof.
  unfold counted. cbn [true_positive true_negative false_positive
                       false_negative].
  rewrite !length_replicate. repeat split.
  intros i Hi. unfold counter_total.
  cbn [true_positive true_negative false_positive false_negative].
  by rewrite !lookup_replicate_2.
Qed.

Section ReplicateFacts.
Variable mt19937 : Z → nat → nat.
Variables Samplers Stats Fitness : Type.
Variable empty_stats : Stats.
Variable seed_thresholds : nat → float → float → M (list float).
Variable assign_type : nat → M (list (list float)).
Variable seed_social_network : nat → nat → network_type → M (list (list Z)).
Variable simulate_stim_sampling :
  nat → float → float → list (list float) → list float →
  M (list float * list Z * Samplers * Samplers).
Variable simulate_cascade : list (list Z) → list Z → list float → M (list Z).
Variable get_cascade_stats :
  nat → Samplers → Samplers → list Z → list (list float) → Stats → M Stats.
Variable assess_fitness :
  nat → float → float → Z → list (list Z) → list float →
  list (list float) → M (Fitness * Fitness).

Local Abbreviation run :=
  (sim_adjusting_network mt19937 Samplers Stats Fitness empty_stats
     seed_thresholds assign_type seed_social_network simulate_stim_sampling
     simulate_cascade get_cascade_stats assess_fitness).
Local Abbreviation step :=
  (timestep Samplers Stats simulate_stim_sampling simulate_cascade
     get_cascade_stats).
Local Abbreviation loop := (run_timesteps Stats).
Local Abbreviation binary := (binary_cascade simulate_cascade).

Lemma timestep_Ok n gamma psi timesteps thresh_mat type_mat t
    network stats df g network' stats' df' g' :
  step n gamma psi timesteps thresh_mat type_mat t (network, stats, df) g
  = Ok ((network', stats', df'), g') →
  ∃ stim states0 states cb g1 g2 g3,
    simulate_cascade network states0 thresh_mat g1 = Ok (states, g2) ∧
    evaluate_behavior float PrimFloat.zero PrimFloat.add PrimFloat.mul
      float_gt states thresh_mat stim type_mat df = Ok (cb, df') ∧
    adjust_tie network states cb g3 = Ok (network', g').
Proof.
  unfold timestep.
  intros ([[[stim states0] smp] smpa] & g1 & _ & H)%bind_Ok.
  apply bind_Ok in H as (states & g2 & Hcas & H).
  apply bind_Ok in H as (stats1 & g3 & _ & H).
  apply bind_Ok in H as ([cb df1] & g4 & Hev & H).
  apply lift_Ok in Hev as [Hev ->].
  apply bind_Ok in H as (net1 & g5 & Hadj & H).
  injection H as <- <- <- <-.
  exists stim, states0, states, cb, g1, g2, g3. done.
Qed.
Lemma evaluate_counted k n (states : list Z) thresholds stimuli types df
    cb df' :
  (∀ s, s ∈ states → s = 0%Z ∨ s = 1%Z) →
  evaluate_behavior float PrimFloat.zero PrimFloat.add PrimFloat.mul
    float_gt states thresholds stimuli types df = Ok (cb, df') →
  counted k n df → counted (k + 1) n df'.
Proof.
  intros Hbin Hrun (Ltp & Ltn & Lfp & Lfn & Hsum).
  destruct (evaluate_behavior_partition_returning _ _ _ _ _ _ _ _ _ _ _ _
              Hbin Hrun)
    as (ms & Hms & L2 & L3 & L4 & _ & _ & Hinc & _).
  apply evaluate_behavior_Ok in Hrun
    as (ts & ms' & _ & _ & Hms' & Htp & Htn & Hfp & Hfn).
  rewrite Hms in Hms'. injection Hms' as <-.
  apply add_mask_Ok in Htp as (Etp & Etp' & _).
  apply add_mask_Ok in Htn as (Etn & Etn' & _).
  apply add_mask_Ok in Hfp as (Efp & Efp' & _).
  apply add_mask_Ok in Hfn as (Efn & Efn' & _).
  unfold counted. repeat (split; [congruence |]).
  intros i Hi. specialize (Hsum i Hi).
  destruct (Hinc i) as (tp & tn & fp & fn & tp' & tn' & fp' & fn' &
                        H1 & H2 & H3 & H4 & H1' & H2' & H3' & H4' & E);
    [lia |].
  unfold counter_total in *.
  rewrite H1, H2, H3, H4 in Hsum. rewrite H1', H2', H3', H4'.
  injection Hsum as <-. f_equal. lia.
Qed.

Lemma loop_adjusted n gamma psi timesteps thresh_mat type_mat network0 :
  ∀ ts k network stats df g network' stats' df' g',
    loop (step n gamma psi timesteps thresh_mat type_mat) ts
         (network, stats, df) g
    = Ok ((network', stats', df'), g') →
    adjusted_times k network0 network →
    adjusted_times (length ts + k) network0 network'.
Proof.
  induction ts as [|t ts IH]; intros k network stats df g network' stats'
    df' g' H Hadj.
  - injection H as <- <- <- <-. done.
  - cbn [run_timesteps] in H.
    apply bind_Ok in H as ([[net1 stats1] df1] & g1 & Hstep & H).
    apply timestep_Ok in Hstep
      as (stim & st0 & st & cb & ga & gb & gc & _ & _ & Hadjust).
    apply adjust_tie_adjusted in Hadjust.
    replace (length (t :: ts) + k) with (length ts + S k) by (simpl; lia).
    eapply IH; [exact H |]. by eapply adjusted_times_snoc.
Qed.

Lemma loop_invariant n gamma psi timesteps thresh_mat type_mat network0
    (Hbin : binary) :
  ∀ ts k network stats df g network' stats' df' g',
    loop (step n gamma psi timesteps thresh_mat type_mat) ts
         (network, stats, df) g
    = Ok ((network', stats', df'), g') →
    adjusted_times k network0 network → counted (Z.of_nat k) n df →
    adjusted_times (length ts + k) network0 network' ∧
    counted (Z.of_nat (length ts + k)) n df'.
Proof.
  induction ts as [|t ts IH]; intros k network stats df g network' stats'
    df' g' H Hadj Hcnt.
  - injection H as <- <- <- <-. done.
  - cbn [run_timesteps] in H.
    apply bind_Ok in H as ([[net1 stats1] df1] & g1 & Hstep & H).
    apply timestep_Ok in Hstep
      as (stim & st0 & st & cb & ga & gb & gc & Hcas & Hev & Hadjust).
    apply adjust_tie_adjusted in Hadjust.
    specialize (IH (S k) _ _ _ _ _ _ _ _ H).
    replace (length (t :: ts) + k) with (length ts + S k) by (simpl; lia).
    apply IH.
    + by eapply adjusted_times_snoc.
    + replace (Z.of_nat (S k)) with (Z.of_nat k + 1)%Z by lia.
      eapply evaluate_counted; [| done | done].
      by eapply Hbin.
Qed.

Lemma run_Ok rep n k gamma psi p timesteps nt g out g' :
  run rep n k gamma psi p timesteps nt g = Ok (out, g') →
  ∃ thresh_mat type_mat g1 g2,
    loop (step n gamma psi timesteps thresh_mat type_mat) (seq 0 timesteps)
         (sn_initial _ _ out, empty_stats,
          mkBehavior (seq 0 n) (replicate n 0%Z) (replicate n 0%Z)
                     (replicate n 0%Z) (replicate n 0%Z)) g1
    = Ok ((sn_final _ _ out, cascade_size _ _ out,
           behavior_data_out _ _ out), g2).
Proof.
  unfold sim_adjusting_network.
  intros (seed & g0 & _ & H)%bind_Ok.
  apply bind_Ok in H as ([] & gs & _ & H).
  unfold simulate_seeded in H.
  apply bind_Ok in H as (th & g1 & _ & H).
  apply bind_Ok in H as (ty & g2 & _ & H).
  apply bind_Ok in H as (net & g3 & _ & H).
  apply bind_Ok in H as ([[net' stats'] df'] & g4 & Hloop & H).
  apply bind_Ok in H as ([fb fs] & g5 & _ & H).
  injection H as <- _. cbn [sn_initial sn_final cascade_size
                            behavior_data_out].
  exists th, ty, g3, g4. exact Hloop.
Qed.

Lemma run_adjusted rep n k gamma psi p timesteps nt g out g' :
  run rep n k gamma psi p timesteps nt g = Ok (out, g') →
  adjusted_times timesteps (sn_initial _ _ out) (sn_final _ _ out).
Proof.
  intros H. apply run_Ok in H as (th & ty & g1 & g2 & Hloop).
  apply (loop_adjusted _ _ _ _ _ _ (sn_initial _ _ out) _ 0) in Hloop;
    [| constructor].
  by rewrite length_seq, Nat.add_0_r in Hloop.
Qed.

(** X16. When the cascade propagator yields state vectors of zeros and
    ones, a replicate that returns has counted every individual once per
    timestep: the four counters of each of the [n] individuals add up to
    the number of timesteps. *)
Theorem sim_counters_total
    (rep : Z) (n k : nat) (gamma psi p : float) (timesteps : nat)
    (nt : network_type) (g : RandomState)
    (out : sim_output Stats Fitness) (g' : RandomState) :
  binary →
  run rep n k gamma psi p timesteps nt g = Ok (out, g') →
  ∀ i, i < n →
    counter_total (behavior_data_out _ _ out) i = Some (Z.of_nat timesteps).
Proof.
  intros Hbin H. apply run_Ok in H as (th & ty & g1 & g2 & Hloop).
  destruct (loop_invariant n gamma psi timesteps th ty (sn_initial _ _ out)
              Hbin _ 0 _ _ _ _ _ _ _ _ Hloop)
    as [_ (_ & _ & _ & _ & Hsum)].
  - constructor.
  - apply counted_zeros.
  - intros i Hi. rewrite length_seq, Nat.add_0_r in Hsum. by apply Hsum.
Qed.

(** X17. The final network of a replicate that returns has the dimensions
    of the initial one, has no self-loop if the initial one had none, and
    holds only zeros and ones if the initial one did. *)
Theorem sim_network_invariants
    (rep : Z) (n k : nat) (gamma psi p : float) (timesteps : nat)
    (nt : network_type) (g : RandomState)
    (out : sim_output Stats Fitness) (g' : RandomState) :
  run rep n k gamma psi p timesteps nt g = Ok (out, g') →
  same_shape (sn_initial _ _ out) (sn_final _ _ out) ∧
  (no_self_loops (sn_initial _ _ out) → no_self_loops (sn_final _ _ out)) ∧
  (is_binary (sn_initial _ _ out) → is_binary (sn_final _ _ out)).
Proof.
  intros H. apply run_adjusted in H.
  destruct (adjusted_times_keeps _ _ _ H) as (S1 & D1 & B1 & _).
  done.
Qed.

(** X18. Over a replicate that returns the number of ties never grows and
    drops by one per timestep at most, and no out-degree moves by more
    than the number of timesteps. *)
Theorem sim_ties_bounds
    (rep : Z) (n k : nat) (gamma psi p : float) (timesteps : nat)
    (nt : network_type) (g : RandomState)
    (out : sim_output Stats Fitness) (g' : RandomState) :
  run rep n k gamma psi p timesteps nt g = Ok (out, g') →
  (total_ties (sn_initial _ _ out) - Z.of_nat timesteps
   ≤ total_ties (sn_final _ _ out) ≤ total_ties (sn_initial _ _ out))%Z ∧
  (∀ i, (- Z.of_nat timesteps
         ≤ out_degree (sn_final _ _ out) i - out_degree (sn_initial _ _ out) i
         ≤ Z.of_nat timesteps)%Z).
Proof.
  intros H. apply run_adjusted in H.
  destruct (adjusted_times_keeps _ _ _ H) as (_ & _ & _ & T & O).
  done.
Qed.

(** X19. A replicate whose derived seed is negative or not below 2^32
    raises [ValueError] at the seeding, before anything is simulated. *)
Theorem sim_seed_out_of_range
    (rep : Z) (n k : nat) (gamma psi p : float) (timesteps : nat)
    (nt : network_type) (g : RandomState) (seed : Z) :
  derive_seed rep gamma = Ok seed →
  (seed < 0 ∨ 2 ^ 32 ≤ seed)%Z →
  run rep n k gamma psi p timesteps nt g = Raise ValueError.
Proof.
  intros Hseed Hrange.
  unfold sim_adjusting_network, bind, lift, np_random_seed.
  rewrite Hseed.
  destruct (0 <=? seed)%Z eqn:E1, (seed <? 2 ^ 32)%Z eqn:E2; try reflexivity.
  apply Z.leb_le in E1. apply Z.ltb_lt in E2. lia.
Qed.
End ReplicateFacts.

Lemma sim_counters_total_witness :
  ∃ out g',
    sim_adjusting_network (λ seed k, Z.to_nat seed + k) unit unit unit tt
    (λ n _ _, ret (replicate n 0.5%float))
    (λ n, ret (replicate n [0%float; 0%float]))
    (λ _ _ _, ret [[0;1;1];[1;0;1];[1;1;0]]%Z)
    (λ n _ _ _ _, ret ([1%float; 1%float], replicate n 1%Z, tt, tt))
    (λ _ states _, ret (map (λ s, if (s =? 1)%Z then 1%Z else 0%Z) states))
    (λ _ _ _ _ _ _, ret tt)
    (λ _ _ _ _ _ _ _, ret (tt, tt))
      1 3 2 0%float 1%float 0%float 2 random (const_rng 7)
    = Ok (out, g') ∧
    counter_total (behavior_data_out _ _ out) 0 = Some 2%Z.
Proof.
  destruct (sim_adjusting_network (λ seed k, Z.to_nat seed + k) unit unit unit tt
    (λ n _ _, ret (replicate n 0.5%float))
    (λ n, ret (replicate n [0%float; 0%float]))
    (λ _ _ _, ret [[0;1;1];[1;0;1];[1;1;0]]%Z)
    (λ n _ _ _ _, ret ([1%float; 1%float], replicate n 1%Z, tt, tt))
    (λ _ states _, ret (map (λ s, if (s =? 1)%Z then 1%Z else 0%Z) states))
    (λ _ _ _ _ _ _, ret tt)
    (λ _ _ _ _ _ _ _, ret (tt, tt))
      1 3 2 0%float 1%float 0%float 2 random (const_rng 7))
    as [[out g']|e] eqn:E; [| vm_compute in E; discriminate].
  exists out, g'. split; [done |].
  refine (sim_counters_total _ _ _ _ _ _ _ _ _ _ _ _
            1 3 2 0%float 1%float 0%float 2 random (const_rng 7) out g'
            _ E 0 _); [| lia].
  intros network states thresholds g states' g'' H s Hs.
  injection H as <- _.
  apply list_elem_of_fmap in Hs as (x & -> & _).
  destruct (x =? 1)%Z; auto.
Defined.

Lemma sim_network_invariants_witness :
  ∃ out g',
    sim_adjusting_network (λ seed k, Z.to_nat seed + k) unit unit unit tt
    (λ n _ _, ret (replicate n 0.5%float))
    (λ n, ret (replicate n [0%float; 0%float]))
    (λ _ _ _, ret [[0;1;1];[1;0;1];[1;1;0]]%Z)
    (λ n _ _ _ _, ret ([1%float; 1%float], replicate n 1%Z, tt, tt))
    (λ _ states _, ret (map (λ s, if (s =? 1)%Z then 1%Z else 0%Z) states))
    (λ _ _ _ _ _ _, ret tt)
    (λ _ _ _ _ _ _ _, ret (tt, tt))
      1 3 2 0%float 1%float 0%float 2 random (const_rng 7)
    = Ok (out, g') ∧
    same_shape (sn_initial _ _ out) (sn_final _ _ out).
Proof.
  destruct (sim_adjusting_network (λ seed k, Z.to_nat seed + k) unit unit unit tt
    (λ n _ _, ret (replicate n 0.5%float))
    (λ n, ret (replicate n [0%float; 0%float]))
    (λ _ _ _, ret [[0;1;1];[1;0;1];[1;1;0]]%Z)
    (λ n _ _ _ _, ret ([1%float; 1%float], replicate n 1%Z, tt, tt))
    (λ _ states _, ret (map (λ s, if (s =? 1)%Z then 1%Z else 0%Z) states))
    (λ _ _ _ _ _ _, ret tt)
    (λ _ _ _ _ _ _ _, ret (tt, tt))
      1 3 2 0%float 1%float 0%float 2 random (const_rng 7))
    as [[out g']|e] eqn:E; [| vm_compute in E; discriminate].
  exists out, g'. split; [done |].
  apply (sim_network_invariants _ _ _ _ _ _ _ _ _ _ _ _
           1 3 2 0%float 1%float 0%float 2 random (const_rng 7) out g' E).
Defined.

Lemma sim_ties_bounds_witness :
  ∃ out g',
    sim_adjusting_network (λ seed k, Z.to_nat seed + k) unit unit unit tt
    (λ n _ _, ret (replicate n 0.5%float))
    (λ n, ret (replicate n [0%float; 0%float]))
    (λ _ _ _, ret [[0;1;1];[1;0;1];[1;1;0]]%Z)
    (λ n _ _ _ _, ret ([1%float; 1%float], replicate n 1%Z, tt, tt))
    (λ _ states _, ret (map (λ s, if (s =? 1)%Z then 1%Z else 0%Z) states))
    (λ _ _ _ _ _ _, ret tt)
    (λ _ _ _ _ _ _ _, ret (tt, tt))
      1 3 2 0%float 1%float 0%float 2 random (const_rng 7)
    = Ok (out, g') ∧
    (total_ties (sn_initial _ _ out) - 2 ≤ total_ties (sn_final _ _ out)
     ≤ total_ties (sn_initial _ _ out))%Z.
Proof.
  destruct (sim_adjusting_network (λ seed k, Z.to_nat seed + k) unit unit unit tt
    (λ n _ _, ret (replicate n 0.5%float))
    (λ n, ret (replicate n [0%float; 0%float]))
    (λ _ _ _, ret [[0;1;1];[1;0;1];[1;1;0]]%Z)
    (λ n _ _ _ _, ret ([1%float; 1%float], replicate n 1%Z, tt, tt))
    (λ _ states _, ret (map (λ s, if (s =? 1)%Z then 1%Z else 0%Z) states))
    (λ _ _ _ _ _ _, ret tt)
    (λ _ _ _ _ _ _ _, ret (tt, tt))
      1 3 2 0%float 1%float 0%float 2 random (const_rng 7))
    as [[out g']|e] eqn:E; [| vm_compute in E; discriminate].
  exists out, g'. split; [done |].
  apply (sim_ties_bounds _ _ _ _ _ _ _ _ _ _ _ _
           1 3 2 0%float 1%float 0%float 2 random (const_rng 7) out g' E).
Defined.

Lemma sim_seed_out_of_range_witness :
  sim_adjusting_network (λ seed k, Z.to_nat seed + k) unit unit unit tt
    (λ n _ _, ret (replicate n 0.5%float))
    (λ n, ret (replicate n [0%float; 0%float]))
    (λ _ _ _, ret [[0;1;1];[1;0;1];[1;1;0]]%Z)
    (λ n _ _ _ _, ret ([1%float; 1%float], replicate n 1%Z, tt, tt))
    (λ _ states _, ret (map (λ s, if (s =? 1)%Z then 1%Z else 0%Z) states))
    (λ _ _ _ _ _ _, ret tt)
    (λ _ _ _ _ _ _ _, ret (tt, tt))
    (-3) 3 2 0%float 1%float 0%float 2 random (const_rng 7)
  = Raise ValueError.
Proof.
  apply (sim_seed_out_of_range _ _ _ _ _ _ _ _ _ _ _ _
           (-3) 3 2 0%float 1%float 0%float 2 random (const_rng 7) (-646)).
  - vm_compute. reflexivity.
  - lia.
Defined.
